(** * Logical Schema: the import handlers and the node dialog of [src/App.tsx]

    A shallow embedding of the [App] component's handlers ([processXML],
    [processCSV], [handleNodeClick], [handleCopyNode], [handleDeleteNode])
    with the React state they read and write passed explicitly.

    What the component only calls is kept apart from what it computes:
    - the JavaScript built-ins it uses ([parseInt], [parseFloat], [split],
      [trim], [||]) are written out in [Module JS];
    - the parsed markup document ([DOMParser]) is a tree of elements,
      [Module DOM];
    - the rows [Papa.parse] returns are records of optional text fields, and
      the two parsers themselves are parameters of the handlers;
    - the [@antv/x6] graph is an ordered in-memory collection of cells,
      [Module X6]. *)

From Stdlib Require Import String Ascii List Bool ZArith QArith Lia.
From Stdlib Require Qcanon.
Import ListNotations.
Open Scope string_scope.
Open Scope list_scope.

(* ------------------------------------------------------------------ *)
(** ** JavaScript values and built-ins *)

Module JS.

(** A JavaScript number: [NaN], an infinity, or a double given by the
    rational it is.  The sign of zero is not kept. *)
Inductive number : Type :=
| NaN : number
| Infinity (negative : bool) : number
| Fin (q : Q) : number.

(** An integer literal of the source (50, 100, ...): a double as it
    stands. *)
Definition of_Z (z : Z) : number := Fin (inject_Z z).

(** *** Rounding to a double *)

(** [num / den] rounded to the nearest integer, ties to even, for
    [0 <= num] and [0 < den]. *)
Definition round_half_even (num den : Z) : Z :=
  let k := (num / den)%Z in
  match (2 * (num mod den) ?= den)%Z with
  | Lt => k
  | Gt => (k + 1)%Z
  | Eq => if Z.even k then k else (k + 1)%Z
  end.

(** The integer part of [log2 (n / d)], for [0 < n] and [0 < d]. *)
Definition log2_floor (n d : Z) : Z :=
  let e := (Z.log2 n - Z.log2 d)%Z in
  if (d * 2 ^ Z.max e 0 <=? n * 2 ^ Z.max (- e) 0)%Z then e else (e - 1)%Z.

(** The Number value for a rational: the nearest double, ties to even,
    with 53 bits of precision down to the exponent -1074, and an infinity
    from [2^1024] on. *)
Definition to_double (q : Q) : number :=
  let n := Z.abs (Qnum q) in
  let d := Z.pos (Qden q) in
  if (n =? 0)%Z then Fin 0
  else
    let p := Z.max (log2_floor n d - 52) (-1074) in
    let up := (2 ^ Z.max p 0)%Z in
    let down := (2 ^ Z.max (- p) 0)%Z in
    let k := round_half_even (n * down) (d * up) in
    if (2 ^ 1024 <=? k * up)%Z then Infinity (Qnum q <? 0)%Z
    else Fin (Qred (Qmake (Z.sgn (Qnum q) * k * up) (Z.to_pos down))).

Definition isFinite (n : number) : bool :=
  match n with
  | Fin _ => true
  | _ => false
  end.

Definition isNaN (n : number) : bool :=
  match n with
  | NaN => true
  | _ => false
  end.

(** [a + b] on numbers. *)
Definition add (a b : number) : number :=
  match a, b with
  | NaN, _ | _, NaN => NaN
  | Infinity s, Infinity t => if Bool.eqb s t then Infinity s else NaN
  | Infinity s, Fin _ | Fin _, Infinity s => Infinity s
  | Fin p, Fin q => to_double (p + q)
  end.

(** [a + b] where [a] may be [undefined]: [undefined + b] is [NaN]. *)
Definition add_to (a : option number) (b : number) : number :=
  match a with
  | Some n => add n b
  | None => NaN
  end.

(** The values that reach a style payload: [undefined], a string or a
    number. *)
Inductive value : Type :=
| VUndefined : value
| VString (s : string) : value
| VNumber (n : number) : value.

(** Anything but [undefined]. *)
Definition resolved (v : value) : bool :=
  match v with
  | VUndefined => false
  | _ => true
  end.

(** Truthiness of a nullable string: [null], [undefined] and [""] are
    falsy. *)
Definition truthy (o : option string) : bool :=
  match o with
  | Some s => negb (s =? "")
  | None => false
  end.

(** [o !== undefined]. *)
Definition defined {A : Type} (o : option A) : bool :=
  match o with
  | Some _ => true
  | None => false
  end.

(** [o || d] for a nullable string [o] and a string [d]. *)
Definition or_else (o : option string) (d : string) : string :=
  match o with
  | Some s => if s =? "" then d else s
  | None => d
  end.

(** [o || undefined]. *)
Definition or_undefined (o : option string) : option string :=
  if truthy o then o else None.

(** [ToString] of a nullable string, as [parseInt] applies it to its
    argument: [null] reads as the text ["null"]. *)
Definition ToString (o : option string) : string :=
  match o with
  | Some s => s
  | None => "null"
  end.

(** *** Scanning numerals *)

(** White space, among the characters below 128. *)
Definition is_space (c : ascii) : bool :=
  let n := nat_of_ascii c in
  (n =? 32)%nat || ((9 <=? n)%nat && (n <=? 13)%nat).

Definition digit (c : ascii) : option Z :=
  let n := nat_of_ascii c in
  if ((48 <=? n)%nat && (n <=? 57)%nat)%bool
  then Some (Z.of_nat (n - 48))
  else None.

Fixpoint skip_space (s : string) : string :=
  match s with
  | String c s' => if is_space c then skip_space s' else s
  | EmptyString => EmptyString
  end.

(** An optional sign: [true] for a minus. *)
Definition read_sign (s : string) : bool * string :=
  match s with
  | String "-"%char s' => (true, s')
  | String "+"%char s' => (false, s')
  | _ => (false, s)
  end.

(** The longest run of decimal digits at the head of [s]: its value,
    continued from [acc], how many digits it has, and what follows. *)
Fixpoint read_digits (s : string) (acc : Z) (count : nat) : Z * nat * string :=
  match s with
  | String c s' =>
      match digit c with
      | Some d => read_digits s' (10 * acc + d) (S count)
      | None => (acc, count, s)
      end
  | EmptyString => (acc, count, s)
  end.

Definition signed (negative : bool) (z : Z) : Z :=
  if negative then (- z)%Z else z.

(** [parseInt(s, 10)]: leading white space, an optional sign, then the
    longest run of digits, as the Number value for that integer; [NaN]
    when there is no digit.  (Past twenty significant digits an engine may
    round the integer first; that freedom is not used here.) *)
Definition parseInt (s : string) : number :=
  let '(negative, body) := read_sign (skip_space s) in
  let '(z, count, _) := read_digits body 0 0 in
  match count with
  | O => NaN
  | S _ => to_double (inject_Z (signed negative z))
  end.

(** The value of a text made of decimal digits only, and at least one. *)
Fixpoint all_digits (s : string) : bool :=
  match s with
  | String c s' => defined (digit c) && all_digits s'
  | EmptyString => true
  end.

Definition plain_integer (s : string) : option Z :=
  match s with
  | EmptyString => None
  | String _ _ =>
      if all_digits s then Some (fst (fst (read_digits s 0 0))) else None
  end.

(** [m * 10^e] as a rational. *)
Definition scale10 (m e : Z) : Q :=
  if (0 <=? e)%Z then inject_Z (m * 10 ^ e)
  else Qmake m (Z.to_pos (10 ^ (- e))).

(** The exponent part [e<sign><digits>] when it is complete, else no
    exponent at all. *)
Definition read_exponent (s : string) : Z :=
  match s with
  | String c s' =>
      if ((c =? "e") || (c =? "E"))%char then
        let '(negative, body) := read_sign s' in
        let '(z, count, _) := read_digits body 0 0 in
        match count with
        | O => 0%Z
        | S _ => signed negative z
        end
      else 0%Z
  | EmptyString => 0%Z
  end.

Definition starts_with (p s : string) : bool := String.prefix p s.

(** [parseFloat(s)]: leading white space, then the longest prefix that is
    a decimal literal ([Infinity], digits with an optional fraction and
    exponent, or a fraction alone), as the Number value for it; [NaN] when
    there is none. *)
Definition parseFloat (s : string) : number :=
  let '(negative, body) := read_sign (skip_space s) in
  if starts_with "Infinity" body then Infinity negative
  else
    let '(ip, icount, rest) := read_digits body 0 0 in
    let '(m, fcount, rest') :=
      match rest with
      | String "."%char after => read_digits after ip 0
      | _ => (ip, O, rest)
      end in
    match icount, fcount with
    | O, O => NaN
    | _, _ =>
        to_double (scale10 (signed negative m)
                           (read_exponent rest' - Z.of_nat fcount))
    end.

(** *** Strings *)

(** The double quote, as a one-character string. *)
Definition quote : string := String (ascii_of_nat 34) "".

(** [s.split(sep)] for a non-empty separator: cut at each occurrence of
    [sep], left to right.  [skip] counts the characters of a separator
    still to be passed over, [cur] is the piece being collected. *)
Fixpoint split_from (sep s : string) (skip : nat) (cur : string) : list string :=
  match s with
  | EmptyString => [cur]
  | String c s' =>
      match skip with
      | S k => split_from sep s' k cur
      | O =>
          if starts_with sep s
          then cur :: split_from sep s' (String.length sep - 1) ""
          else split_from sep s' 0 (cur ++ String c "")
      end
  end.

Definition split (sep s : string) : list string := split_from sep s 0 "".

(** [s.includes(sep)]. *)
Fixpoint includesb (sep s : string) : bool :=
  starts_with sep s
  || match s with
     | String _ s' => includesb sep s'
     | EmptyString => false
     end.

(** [sep] occurs somewhere in [s]. *)
Definition includes (sep s : string) : Prop :=
  exists before after : string, s = (before ++ sep ++ after)%string.

Fixpoint rev_string (s : string) : string :=
  match s with
  | EmptyString => EmptyString
  | String c s' => rev_string s' ++ String c ""
  end.

(** [s.trim()]. *)
Definition trim (s : string) : string :=
  rev_string (skip_space (rev_string (skip_space s))).

End JS.

(* ------------------------------------------------------------------ *)
(** ** The parsed markup document *)

Module DOM.

(** An element of the document [DOMParser] returns: its tag, its attributes
    and its child elements, in document order.  Text between elements plays
    no part in the import. *)
#[warnings="-register-all"]
Inductive Element : Type :=
| Elem (tagName : string) (attributes : list (string * string))
       (children : list Element) : Element.

Definition tagName (e : Element) : string :=
  match e with Elem t _ _ => t end.

Definition attributes (e : Element) : list (string * string) :=
  match e with Elem _ a _ => a end.

Definition children (e : Element) : list Element :=
  match e with Elem _ _ c => c end.

(** [e.getAttribute(name)]: the attribute's text, [null] when [e] has no
    such attribute. *)
Definition getAttribute (name : string) (e : Element) : option string :=
  option_map snd (find (fun kv => fst kv =? name) (attributes e)).

(** An element followed by its descendants, in document (pre-)order. *)
Fixpoint subtree (e : Element) : list Element :=
  match e with
  | Elem _ _ cs => e :: flat_map subtree cs
  end.

(** A document is given by its root element. *)
Definition Document : Type := Element.

(** [doc.getElementsByTagName(tag)]: every element of the document with
    that tag, in document order. *)
Definition getElementsByTagName (tag : string) (doc : Document) : list Element :=
  filter (fun e => tagName e =? tag) (subtree doc).

(** How many elements of the tree rooted at [e] carry the tag: counted on
    the tree itself, without listing it. *)
Fixpoint count_elements (tag : string) (e : Element) : nat :=
  match e with
  | Elem t _ cs =>
      (if t =? tag then 1 else 0) + list_sum (map (count_elements tag) cs)
  end.

End DOM.

(* ------------------------------------------------------------------ *)
(** ** The records of the import ([interface NodeData], [interface EdgeData]) *)

(** [NodeData] as [processXML] fills it: the three numeric fields and the
    position already parsed, the style fields already defaulted;
    [id], [label] and [type] are whatever [getAttribute] returned. *)
Module NodeData.
Record t : Type := mk {
  id : option string;
  label : option string;
  x : JS.number;
  y : JS.number;
  type : option string;
  fill : string;
  width : JS.number;
  height : JS.number;
  stroke : string;
  strokeWidth : JS.number
}.
End NodeData.

(** [NodeData] as [Papa.parse] fills it, with a header row and no dynamic
    typing: every field is the text of its column, and is absent when the
    row has no such column. *)
Module NodeRow.
Record t : Type := mk {
  id : option string;
  label : option string;
  x : option string;
  y : option string;
  type : option string;
  fill : option string;
  width : option string;
  height : option string;
  stroke : option string;
  strokeWidth : option string
}.
End NodeRow.

(** [EdgeData], on both import paths: text or absent. *)
Module EdgeData.
Record t : Type := mk {
  source : option string;
  target : option string;
  id : option string;
  name : option string;
  type : option string
}.
End EdgeData.

(* ------------------------------------------------------------------ *)
(** ** Header-plus-rows text *)

(** A reading of what [Papa.parse] does with [header: true] and
    [skipEmptyLines: true], for plain text only: lines ended by a line
    feed, cells separated by commas, and none of the characters that would
    make the library read the text otherwise (a carriage return, a double
    quote, or another delimiter it may guess: tab, semicolon, bar, or the
    record and unit separators).  On such text there is one record per
    non-empty line after the header line, cells cut at commas and named by
    the header; a row shorter than the header leaves its last columns
    absent, cells beyond the header are dropped.  The handlers below take
    the parser as a parameter; this one serves to run them on the sample
    tables, which are plain. *)
Module Papa.

(** No character that takes the text out of the reading above. *)
Definition plain_char (c : ascii) : bool :=
  negb (existsb (Nat.eqb (nat_of_ascii c)) [9; 13; 30; 31; 34; 59; 124]%nat).

Fixpoint plain (text : string) : bool :=
  match text with
  | String c rest => plain_char c && plain rest
  | EmptyString => true
  end.

Definition newline : string := String (ascii_of_nat 10) "".

Definition lines (text : string) : list string :=
  filter (fun l => negb (l =? "")) (JS.split newline text).

Definition record (header : list string) (line : string) : list (string * string) :=
  combine header (JS.split "," line).

Definition parse (text : string) : list (list (string * string)) :=
  match lines text with
  | [] => []
  | header :: rows => map (record (JS.split "," header)) rows
  end.

Definition field (name : string) (r : list (string * string)) : option string :=
  option_map snd (find (fun kv => fst kv =? name) r).

Definition node_row (r : list (string * string)) : NodeRow.t :=
  {| NodeRow.id := field "id" r;
     NodeRow.label := field "label" r;
     NodeRow.x := field "x" r;
     NodeRow.y := field "y" r;
     NodeRow.type := field "type" r;
     NodeRow.fill := field "fill" r;
     NodeRow.width := field "width" r;
     NodeRow.height := field "height" r;
     NodeRow.stroke := field "stroke" r;
     NodeRow.strokeWidth := field "strokeWidth" r |}.

Definition edge_row (r : list (string * string)) : EdgeData.t :=
  {| EdgeData.source := field "source" r;
     EdgeData.target := field "target" r;
     EdgeData.id := field "id" r;
     EdgeData.name := field "name" r;
     EdgeData.type := field "type" r |}.

Definition parse_nodes (text : string) : list NodeRow.t :=
  map node_row (parse text).

Definition parse_edges (text : string) : list EdgeData.t :=
  map edge_row (parse text).

End Papa.

(* ------------------------------------------------------------------ *)
(** ** The graph store *)

(** The [@antv/x6] [Graph] as the component uses it: an ordered collection
    of cells, each kept with the metadata it was added with.  [addNode]
    throws for a shape that is not registered and leaves the store as it is
    when the identifier asked for is already held; [addEdge] accepts any
    terminals.  An identifier that the caller does not supply is drawn by
    the store and is distinct from every supplied one.  Which shapes are
    registered (by x6 itself and by the module [./shape]) is a parameter. *)
Module X6.

Inductive CellId : Type :=
| Given (s : string) : CellId
| Generated (n : nat) : CellId.

Definition CellId_eqb (a b : CellId) : bool :=
  match a, b with
  | Given s, Given t => s =? t
  | Generated n, Generated m => Nat.eqb n m
  | _, _ => false
  end.

(** [attrs.body] of a node. *)
Module Body.
Record t : Type := mk {
  fill : JS.value;
  stroke : JS.value;
  strokeWidth : JS.value
}.
End Body.

(** [attrs] of a node: [{ body: {...}, label: { text } }]. *)
Module NodeAttrs.
Record t : Type := mk {
  body : Body.t;
  label_text : option string
}.
End NodeAttrs.

(** The argument of [graph.addNode]; [width] and [height] may be
    [undefined]. *)
Module NodeMeta.
Record t : Type := mk {
  id : option string;
  label : option string;
  x : JS.number;
  y : JS.number;
  width : option JS.number;
  height : option JS.number;
  shape : option string;
  attrs : NodeAttrs.t
}.
End NodeMeta.

(** [node.toJSON()], at the names the copy handler reads from it.  x6
    keeps position and size under [position] and [size] and folds the
    label into the attributes, so of these names only [shape] and [attrs]
    are there: [x], [y], [width], [height] and [label] are [undefined]. *)
Module NodeJSON.
Record t : Type := mk {
  shape : option string;
  x : option JS.number;
  y : option JS.number;
  width : option JS.number;
  height : option JS.number;
  label : option string;
  attrs : NodeAttrs.t
}.
End NodeJSON.

(** [attrs.line] of an edge. *)
Module Line.
Record t : Type := mk {
  stroke : string;
  strokeWidth : JS.number;
  strokeDasharray : option string
}.
End Line.

(** [attrs.sourceMarker] and [attrs.targetMarker]. *)
Module Marker.
Record t : Type := mk {
  name : string;
  size : JS.number;
  fill : string;
  stroke : string;
  shape : string
}.
End Marker.

(** [attrs.label] of an edge. *)
Module Label.
Record t : Type := mk {
  text : string;
  fill : string;
  fontSize : JS.number
}.
End Label.

Module EdgeAttrs.
Record t : Type := mk {
  line : Line.t;
  sourceMarker : Marker.t;
  targetMarker : Marker.t;
  label : option Label.t
}.
End EdgeAttrs.

(** The argument of [graph.addEdge]: [source: { cell }], [target: { cell }]
    and [attrs]. *)
Module EdgeMeta.
Record t : Type := mk {
  source : option CellId;
  target : option CellId;
  attrs : EdgeAttrs.t
}.
End EdgeMeta.

Inductive Cell : Type :=
| Node (id : CellId) (meta : NodeMeta.t) : Cell
| Edge (id : CellId) (meta : EdgeMeta.t) : Cell.

Definition cell_id (c : Cell) : CellId :=
  match c with
  | Node i _ => i
  | Edge i _ => i
  end.

Definition isNode (c : Cell) : bool :=
  match c with
  | Node _ _ => true
  | Edge _ _ => false
  end.

Record Graph : Type := mkGraph {
  cells : list Cell;
  counter : nat
}.

(** The identifier a new cell gets: the one asked for when there is one,
    else the next one of the store's own. *)
Definition assign (requested : option string) (g : Graph) : CellId :=
  match requested with
  | Some s => if s =? "" then Generated (counter g) else Given s
  | None => Generated (counter g)
  end.

Definition push (c : Cell) (g : Graph) : Graph :=
  {| cells := cells g ++ [c]; counter := S (counter g) |}.

(** Whether the store holds a cell under [i]. *)
Definition held (i : CellId) (g : Graph) : bool :=
  existsb (fun c => CellId_eqb (cell_id c) i) (cells g).

Section Registry.

(** Whether a node shape is registered under the value of [shape]. *)
Variable registered : option string -> bool.

(** [graph.addNode(meta)]: nothing when it throws, which it does for a
    shape that is not registered; else the node created and the store
    after the call, which is the store before it when the identifier asked
    for is already held. *)
Definition addNode (meta : NodeMeta.t) (g : Graph) : option (Cell * Graph) :=
  if registered (NodeMeta.shape meta) then
    let c := Node (assign (NodeMeta.id meta) g) meta in
    Some (c, match cell_id c with
             | Given _ => if held (cell_id c) g then g else push c g
             | Generated _ => push c g
             end)
  else None.

End Registry.

(** [node.toJSON()] for a node added with [meta]: its shape and its attrs.
    The store keeps place and size under [position] and [size] and the
    label text inside the attrs, so the properties [x], [y], [width],
    [height] and [label] are not there to be read. *)
Definition toJSON (meta : NodeMeta.t) : NodeJSON.t :=
  {| NodeJSON.shape := NodeMeta.shape meta;
     NodeJSON.x := None;
     NodeJSON.y := None;
     NodeJSON.width := None;
     NodeJSON.height := None;
     NodeJSON.label := None;
     NodeJSON.attrs := NodeMeta.attrs meta |}.

(** [graph.addEdge(meta)]; the component never passes an edge id. *)
Definition addEdge (meta : EdgeMeta.t) (g : Graph) : Cell * Graph :=
  let c := Edge (Generated (counter g)) meta in
  (c, push c g).

(** [graph.clearCells()]. *)
Definition clearCells (g : Graph) : Graph :=
  {| cells := []; counter := counter g |}.

(** [graph.getCellById(id)]. *)
Definition getCellById (i : CellId) (g : Graph) : option Cell :=
  find (fun c => CellId_eqb (cell_id c) i) (cells g).

Definition terminal_is (i : CellId) (t : option CellId) : bool :=
  match t with
  | Some j => CellId_eqb j i
  | None => false
  end.

(** Whether [c] is an edge with [i] at one of its ends. *)
Definition incident (i : CellId) (c : Cell) : bool :=
  match c with
  | Edge _ m => terminal_is i (EdgeMeta.source m) || terminal_is i (EdgeMeta.target m)
  | Node _ _ => false
  end.

(** [graph.removeCell(cell)]: the cell goes, and with a node the edges at
    it. *)
Definition removeCell (c : Cell) (g : Graph) : Graph :=
  {| cells := filter (fun d => negb (CellId_eqb (cell_id d) (cell_id c))
                               && negb (isNode c && incident (cell_id c) d))
                     (cells g);
     counter := counter g |}.

(** The nodes, and the edges, of the store, in insertion order. *)
Definition nodes (g : Graph) : list NodeMeta.t :=
  flat_map (fun c => match c with Node _ m => [m] | Edge _ _ => [] end) (cells g).

Definition edges (g : Graph) : list EdgeMeta.t :=
  flat_map (fun c => match c with Edge _ m => [m] | Node _ _ => [] end) (cells g).

(** The identifiers of the nodes of the store. *)
Definition node_ids (g : Graph) : list CellId :=
  flat_map (fun c => match c with Node i _ => [i] | Edge _ _ => [] end) (cells g).

End X6.

(* ------------------------------------------------------------------ *)
(** ** The component *)

Module App.

Import X6.

(** What [console.error] is called with: a row turned away by a guard of
    [processCSV], or the error caught by its [catch]. *)
Inductive Diagnostic : Type :=
| InvalidNodeData (node : NodeRow.t) : Diagnostic
| InvalidEdgeData (edge : EdgeData.t) : Diagnostic
| CsvProcessingError : Diagnostic.

(** How a [try] block ends: at its end, or at a throw, in either case
    with what it had reached by then. *)
Inductive Try (A : Type) : Type :=
| Completed (a : A) : Try A
| Threw (a : A) : Try A.

Arguments Completed {A} a.
Arguments Threw {A} a.

(** What the block had reached when it ended, and whether it ended at its
    end. *)
Definition reached {A : Type} (t : Try A) : A :=
  match t with
  | Completed a => a
  | Threw a => a
  end.

Definition completed {A : Type} (t : Try A) : bool :=
  match t with
  | Completed _ => true
  | Threw _ => false
  end.

(** The component's state ([graph], [showModal], [selectedNode], [error])
    and the [console.error] calls made so far, oldest first. *)
Record State : Type := mkState {
  graph : option Graph;
  showModal : bool;
  selectedNode : option CellId;
  error : option string;
  console : list Diagnostic
}.

Definition setGraph (g : Graph) (st : State) : State :=
  {| graph := Some g; showModal := showModal st;
     selectedNode := selectedNode st; error := error st;
     console := console st |}.

Definition setShowModal (b : bool) (st : State) : State :=
  {| graph := graph st; showModal := b;
     selectedNode := selectedNode st; error := error st;
     console := console st |}.

Definition setSelectedNode (i : option CellId) (st : State) : State :=
  {| graph := graph st; showModal := showModal st;
     selectedNode := i; error := error st;
     console := console st |}.

Definition setError (msg : string) (st : State) : State :=
  {| graph := graph st; showModal := showModal st;
     selectedNode := selectedNode st; error := Some msg;
     console := console st |}.

(** The marker decoration every edge gets. *)
Definition sourceMarker : Marker.t :=
  Marker.mk "marker" (JS.of_Z 8) "purple" "purple" "circle".

Definition targetMarker : Marker.t :=
  Marker.mk "marker" (JS.of_Z 8) "purple" "purple" "diamond".

(** [type === 'dashed' ? '5, 5' : type === 'dotted' ? '2, 2' : undefined]. *)
Definition strokeDasharray (type : option string) : option string :=
  match type with
  | Some t =>
      if t =? "dashed" then Some "5, 5"
      else if t =? "dotted" then Some "2, 2"
      else None
  | None => None
  end.

(** [type === 'rectangle']. *)
Definition is_rectangle (type : option string) : bool :=
  match type with
  | Some t => t =? "rectangle"
  | None => false
  end.

(** Truthiness of the selection slot. *)
Definition selected (i : option CellId) : option CellId :=
  match i with
  | Some (Given s) => if s =? "" then None else i
  | _ => i
  end.

(** *** [handleNodeClick], [handleCopyNode], [handleDeleteNode] *)

Definition handleNodeClick (cell : option CellId) (st : State) : State :=
  match graph st, cell with
  | Some g, Some i =>
      match getCellById i g with
      | Some clickedNode =>
          if isNode clickedNode
          then setShowModal true (setSelectedNode (Some (cell_id clickedNode)) st)
          else st
      | None => st
      end
  | _, _ => st
  end.

(** What [handleCopyNode] passes to [graph.addNode], from the names it
    reads off [clickedNode.toJSON()]. *)
Definition copyNodeMeta (json : NodeJSON.t) : NodeMeta.t :=
  {| NodeMeta.id := None;
     NodeMeta.shape := NodeJSON.shape json;
     NodeMeta.x := JS.add_to (NodeJSON.x json) (JS.of_Z 100);
     NodeMeta.y := JS.add_to (NodeJSON.y json) (JS.of_Z 100);
     NodeMeta.width := NodeJSON.width json;
     NodeMeta.height := NodeJSON.height json;
     NodeMeta.label := NodeJSON.label json;
     NodeMeta.attrs := NodeJSON.attrs json |}.

(** The edge [handleCopyNode] adds between the two. *)
Definition copyEdgeMeta (clicked copied : CellId) : EdgeMeta.t :=
  {| EdgeMeta.source := Some clicked;
     EdgeMeta.target := Some copied;
     EdgeMeta.attrs :=
       {| EdgeAttrs.line := Line.mk "#000" (JS.of_Z 2) (Some "5, 5");
          EdgeAttrs.sourceMarker := sourceMarker;
          EdgeAttrs.targetMarker := targetMarker;
          EdgeAttrs.label := None |} |}.

Section CopyHandler.

Variable registered : option string -> bool.

(** The handler has no [try]: when [graph.addNode] throws, the error
    leaves it before [setShowModal(false)] and the state stays as it
    was. *)
Definition handleCopyNode (st : State) : State :=
  match graph st, selected (selectedNode st) with
  | Some g, Some sel =>
      match getCellById sel g with
      | Some (Node clickedId meta) =>
          match addNode registered (copyNodeMeta (toJSON meta)) g with
          | Some (copiedNode, g1) =>
              let '(_, g2) :=
                addEdge (copyEdgeMeta clickedId (cell_id copiedNode)) g1 in
              setShowModal false (setGraph g2 st)
          | None => st
          end
      | _ => setShowModal false st
      end
  | _, _ => setShowModal false st
  end.

End CopyHandler.

Definition handleDeleteNode (st : State) : State :=
  let st' :=
    match graph st, selected (selectedNode st) with
    | Some g, Some sel =>
        match getCellById sel g with
        | Some cell => setGraph (removeCell cell g) st
        | None => st
        end
    | _, _ => st
    end in
  setShowModal false st'.

(** *** [processXML] *)

(** The record built from a [node] element. *)
Definition xmlNodeData (node : DOM.Element) : NodeData.t :=
  {| NodeData.id := DOM.getAttribute "id" node;
     NodeData.label := DOM.getAttribute "label" node;
     NodeData.x := JS.parseInt (JS.ToString (DOM.getAttribute "x" node));
     NodeData.y := JS.parseInt (JS.ToString (DOM.getAttribute "y" node));
     NodeData.type := DOM.getAttribute "type" node;
     NodeData.fill := JS.or_else (DOM.getAttribute "fill" node) "#3366cc";
     NodeData.width :=
       JS.parseInt (JS.or_else (DOM.getAttribute "width" node) "100");
     NodeData.height :=
       JS.parseInt (JS.or_else (DOM.getAttribute "height" node) "100");
     NodeData.stroke := JS.or_else (DOM.getAttribute "stroke" node) "#000";
     NodeData.strokeWidth :=
       JS.parseInt (JS.or_else (DOM.getAttribute "strokeWidth" node) "1") |}.

(** The record built from an [edge] element. *)
Definition xmlEdgeData (edge : DOM.Element) : EdgeData.t :=
  {| EdgeData.source := DOM.getAttribute "source" edge;
     EdgeData.target := DOM.getAttribute "target" edge;
     EdgeData.id := JS.or_undefined (DOM.getAttribute "id" edge);
     EdgeData.name := JS.or_undefined (DOM.getAttribute "name" edge);
     EdgeData.type := Some (JS.or_else (DOM.getAttribute "type" edge) "solid") |}.

Definition xmlNodes (xmlDoc : DOM.Document) : list NodeData.t :=
  map xmlNodeData (DOM.getElementsByTagName "node" xmlDoc).

Definition xmlEdges (xmlDoc : DOM.Document) : list EdgeData.t :=
  map xmlEdgeData (DOM.getElementsByTagName "edge" xmlDoc).

(** What [processXML] passes to [graph.addNode]. *)
Definition xmlNodeMeta (node : NodeData.t) : NodeMeta.t :=
  {| NodeMeta.id := NodeData.id node;
     NodeMeta.label := NodeData.label node;
     NodeMeta.x := NodeData.x node;
     NodeMeta.y := NodeData.y node;
     NodeMeta.width := Some (NodeData.width node);
     NodeMeta.height :=
       Some (if is_rectangle (NodeData.type node) then JS.of_Z 50
             else NodeData.height node);
     NodeMeta.shape := NodeData.type node;
     NodeMeta.attrs :=
       {| NodeAttrs.body :=
            {| Body.fill := JS.VString (NodeData.fill node);
               Body.stroke := JS.VString (NodeData.stroke node);
               Body.strokeWidth := JS.VNumber (NodeData.strokeWidth node) |};
          NodeAttrs.label_text := NodeData.label node |} |}.

(** What [processXML] passes to [graph.addEdge]. *)
Definition xmlEdgeMeta (edge : EdgeData.t) : EdgeMeta.t :=
  {| EdgeMeta.source := option_map Given (EdgeData.source edge);
     EdgeMeta.target := option_map Given (EdgeData.target edge);
     EdgeMeta.attrs :=
       {| EdgeAttrs.line :=
            Line.mk "#000" (JS.of_Z 2) (strokeDasharray (EdgeData.type edge));
          EdgeAttrs.sourceMarker := sourceMarker;
          EdgeAttrs.targetMarker := targetMarker;
          EdgeAttrs.label :=
            Some (Label.mk (JS.or_else (EdgeData.name edge) "") "#333"
                           (JS.of_Z 12)) |} |}.

(** [list.forEach(x => graph.addEdge(f x))]. *)
Definition addEdges (metas : list EdgeMeta.t) (g : Graph) : Graph :=
  fold_left (fun g m => snd (addEdge m g)) metas g.

Definition xmlProcessingError : string :=
  "Error processing the XML file. Please check the file format and try again.".

Definition csvProcessingError : string :=
  "Error processing the CSV files. Please check the file format and try again.".

(** What [FileReader.readAsText] later reports for a file: [onload] with
    the text as [result], or [onerror]. *)
Inductive ReadOutcome : Type :=
| Loaded (result : string) : ReadOutcome
| ReadFailed : ReadOutcome.

(** The file picked in the upload control: its declared [type], and how
    reading it ends. *)
Module File.
Record t : Type := mk {
  type : string;
  read : ReadOutcome
}.
End File.

Definition unsupportedFileType : string :=
  "Unsupported file type. Please upload XML or CSV files.".

Definition fileReadError : string :=
  "Error reading the file. Please try again.".

(** What the component reacts to: the effect that creates the graph when
    it is mounted, a [node:click] of the graph, the two buttons of the
    dialog and its [onHide], and a change of the upload control. *)
Inductive Event : Type :=
| Mount : Event
| NodeClick (cell : option CellId) : Event
| CopyNode : Event
| DeleteNode : Event
| HideModal : Event
| FileUpload (file : option File.t) : Event.

(** The state before the component is mounted. *)
Definition initial : State := mkState None false None None [].

Section Handlers.

(** [new DOMParser().parseFromString(text, 'application/xml')] and
    [Papa.parse(text, { header: true, skipEmptyLines: true }).data] at the
    two row types. *)
Variable registered : option string -> bool.
Variable parseFromString : string -> DOM.Document.
Variable Papa_parse_nodes : string -> list NodeRow.t.
Variable Papa_parse_edges : string -> list EdgeData.t.

(** [list.forEach(x => graph.addNode(x))] inside a [try]: it stops at
    the first call that throws, with the nodes added until then in the
    store. *)
Fixpoint addNodes (metas : list NodeMeta.t) (g : Graph) : Try Graph :=
  match metas with
  | [] => Completed g
  | meta :: rest =>
      match addNode registered meta g with
      | Some (_, g') => addNodes rest g'
      | None => Threw g
      end
  end.

(** The [try] of [processXML] is left early only by [graph.addNode]; its
    [catch] then sets the error banner, the store staying as the throw
    found it. *)
Definition processXML (xmlContent : string) (st : State) : State :=
  let xmlDoc := parseFromString xmlContent in
  let nodes := xmlNodes xmlDoc in
  let edges := xmlEdges xmlDoc in
  match graph st with
  | Some g =>
      let g0 := clearCells g in
      match addNodes (map xmlNodeMeta nodes) g0 with
      | Completed g1 =>
          let g2 := addEdges (map xmlEdgeMeta edges) g1 in
          setGraph g2 st
      | Threw g1 => setError xmlProcessingError (setGraph g1 st)
      end
  | None => st
  end.

(** *** [processCSV] *)

(** The guard on a node row:
    [node.id && node.label && node.x !== undefined && node.y !== undefined
     && node.type]. *)
Definition csvNodeOk (node : NodeRow.t) : bool :=
  JS.truthy (NodeRow.id node) && JS.truthy (NodeRow.label node)
  && JS.defined (NodeRow.x node) && JS.defined (NodeRow.y node)
  && JS.truthy (NodeRow.type node).

(** The guard on an edge row: [edge.source && edge.target]. *)
Definition csvEdgeOk (edge : EdgeData.t) : bool :=
  JS.truthy (EdgeData.source edge) && JS.truthy (EdgeData.target edge).

(** [node.strokeWidth || 1]: the column's text as it is, else the
    number 1. *)
Definition csvStrokeWidth (o : option string) : JS.value :=
  match o with
  | Some s => if s =? "" then JS.VNumber (JS.of_Z 1) else JS.VString s
  | None => JS.VNumber (JS.of_Z 1)
  end.

(** [node.stroke], passed on as it is. *)
Definition csvStroke (o : option string) : JS.value :=
  match o with
  | Some s => JS.VString s
  | None => JS.VUndefined
  end.

(** What [processCSV] passes to [graph.addNode] for a row that passed the
    guard; there [node.x] and [node.y] are text and [toString] returns
    them. *)
Definition csvNodeMeta (node : NodeRow.t) : NodeMeta.t :=
  {| NodeMeta.id := NodeRow.id node;
     NodeMeta.label := NodeRow.label node;
     NodeMeta.x := JS.parseFloat (JS.ToString (NodeRow.x node));
     NodeMeta.y := JS.parseFloat (JS.ToString (NodeRow.y node));
     NodeMeta.width :=
       Some (JS.parseFloat (JS.or_else (NodeRow.width node) "100"));
     NodeMeta.height :=
       Some (if is_rectangle (NodeRow.type node) then JS.of_Z 50
             else JS.parseFloat (JS.or_else (NodeRow.height node) "100"));
     NodeMeta.shape := NodeRow.type node;
     NodeMeta.attrs :=
       {| NodeAttrs.body :=
            {| Body.fill := JS.VString (JS.or_else (NodeRow.fill node) "#3366cc");
               Body.stroke := csvStroke (NodeRow.stroke node);
               Body.strokeWidth := csvStrokeWidth (NodeRow.strokeWidth node) |};
          NodeAttrs.label_text := NodeRow.label node |} |}.

(** What [processCSV] passes to [graph.addEdge]. *)
Definition csvEdgeMeta (edge : EdgeData.t) : EdgeMeta.t :=
  {| EdgeMeta.source := option_map Given (EdgeData.source edge);
     EdgeMeta.target := option_map Given (EdgeData.target edge);
     EdgeMeta.attrs :=
       {| EdgeAttrs.line :=
            Line.mk "purple" (JS.of_Z 2) (strokeDasharray (EdgeData.type edge));
          EdgeAttrs.sourceMarker := sourceMarker;
          EdgeAttrs.targetMarker := targetMarker;
          EdgeAttrs.label := None |} |}.

(** [nodesData.forEach], on the store and the console: a row that passes
    the guard is added, another is reported; the loop stops at the first
    [graph.addNode] that throws. *)
Fixpoint csvNodes (rows : list NodeRow.t) (g : Graph) (log : list Diagnostic)
  : Try (Graph * list Diagnostic) :=
  match rows with
  | [] => Completed (g, log)
  | node :: rest =>
      if csvNodeOk node then
        match addNode registered (csvNodeMeta node) g with
        | Some (_, g') => csvNodes rest g' log
        | None => Threw (g, log)
        end
      else csvNodes rest g (log ++ [InvalidNodeData node])
  end.

(** One turn of [edgesData.forEach]. *)
Definition csvEdgeStep (acc : Graph * list Diagnostic) (edge : EdgeData.t)
  : Graph * list Diagnostic :=
  let '(g, log) := acc in
  if csvEdgeOk edge then (snd (addEdge (csvEdgeMeta edge) g), log)
  else (g, log ++ [InvalidEdgeData edge]).

Definition csvInvalidFormat : string :=
  "Invalid CSV format. Please ensure nodes and edges are separated by "
  ++ JS.quote ++ "---" ++ JS.quote ++ ".".

(** What [processCSV] does with the rows once it has a graph: clear, the
    two loops, and the [catch], which reports the error to the console and
    sets the banner, the store staying as the throw found it. *)
Definition csvImport (nodesData : list NodeRow.t) (edgesData : list EdgeData.t)
  (g : Graph) (st : State) : State :=
  match csvNodes nodesData (clearCells g) (console st) with
  | Completed acc1 =>
      let '(g2, log) := fold_left csvEdgeStep edgesData acc1 in
      {| graph := Some g2; showModal := showModal st;
         selectedNode := selectedNode st; error := error st;
         console := log |}
  | Threw (g1, log) =>
      {| graph := Some g1; showModal := showModal st;
         selectedNode := selectedNode st; error := Some csvProcessingError;
         console := log ++ [CsvProcessingError] |}
  end.

(** The [try] of [processCSV] is left early only by [graph.addNode].  Past
    the guard both sections are text, and [ToString] returns them. *)
Definition processCSV (csvContent : string) (st : State) : State :=
  let parts := JS.split "---" csvContent in
  let nodesContent := nth_error parts 0 in
  let edgesContent := nth_error parts 1 in
  if negb (JS.truthy nodesContent) || negb (JS.truthy edgesContent) then
    setError csvInvalidFormat st
  else
    let nodesData := Papa_parse_nodes (JS.trim (JS.ToString nodesContent)) in
    let edgesData := Papa_parse_edges (JS.trim (JS.ToString edgesContent)) in
    match graph st with
    | Some g => csvImport nodesData edgesData g st
    | None => st
    end.

(** *** [handleFileUpload] *)

(** The change handler of the upload control, taken up to the end of the
    read it starts: [files?.[0]] is [file], and [reader.onload] or
    [reader.onerror] runs as [File.read file] says. *)
Definition handleFileUpload (file : option File.t) (st : State) : State :=
  match file with
  | Some f =>
      match File.read f with
      | Loaded result =>
          if JS.truthy (Some result) then
            if File.type f =? "text/xml" then processXML result st
            else if File.type f =? "text/csv" then processCSV result st
            else setError unsupportedFileType st
          else st
      | ReadFailed => setError fileReadError st
      end
  | None => st
  end.

(** *** The component as a whole *)

(** The handler each event runs.  The mount effect installs a new, empty
    graph. *)
Definition handle (e : Event) (st : State) : State :=
  match e with
  | Mount => setGraph (mkGraph [] 0) st
  | NodeClick cell => handleNodeClick cell st
  | CopyNode => handleCopyNode registered st
  | DeleteNode => handleDeleteNode st
  | HideModal => setShowModal false st
  | FileUpload file => handleFileUpload file st
  end.

(** The state after a run of events, each handled to its end before the
    next. *)
Definition run (events : list Event) (st : State) : State :=
  fold_left (fun st e => handle e st) events st.

End Handlers.

(** The node and edge sections of tabular text, when both are there and
    not empty: the texts [processCSV] goes on to parse. *)
Definition sections (csvContent : string) : option (string * string) :=
  match JS.split "---" csvContent with
  | nodesContent :: edgesContent :: _ =>
      if JS.truthy (Some nodesContent) && JS.truthy (Some edgesContent)
      then Some (nodesContent, edgesContent)
      else None
  | _ => None
  end.

(** The rows a guard turns away, as [console.error] reports them. *)
Definition rejected {A : Type} (ok : A -> bool) (report : A -> Diagnostic)
  (rows : list A) : list Diagnostic :=
  map report (filter (fun r => negb (ok r)) rows).

End App.

(* ------------------------------------------------------------------ *)
(** ** Sample inputs *)

Module Samples.

Import App X6.

Definition newline : string := Papa.newline.

(** A registry that has the shapes [rectangle] and [circle] and no
    other. *)
Definition shapes (shape : option string) : bool :=
  match shape with
  | Some s => (s =? "rectangle") || (s =? "circle")
  | None => false
  end.

(** An empty store and the state of the component once it is mounted. *)
Definition empty_graph : Graph := mkGraph [] 0.

Definition mounted : State := mkState (Some empty_graph) false None None [].

(** A rectangle [a], a circle [b] and a dashed edge from [a] to [b]. *)
Definition two_nodes : DOM.Document :=
  DOM.Elem "graph" []
    [ DOM.Elem "node"
        [("id", "a"); ("label", "A"); ("x", "10"); ("y", "20");
         ("type", "rectangle"); ("height", "80")] [];
      DOM.Elem "node"
        [("id", "b"); ("label", "B"); ("x", "30"); ("y", "40");
         ("type", "circle"); ("height", "80")] [];
      DOM.Elem "edge"
        [("source", "a"); ("target", "b"); ("type", "dashed");
         ("name", "joins")] [] ].

(** One node and two edges from it: one to a node that is not there, one
    back to itself. *)
Definition dangling : DOM.Document :=
  DOM.Elem "graph" []
    [ DOM.Elem "node"
        [("id", "a"); ("label", "A"); ("x", "10"); ("y", "20");
         ("type", "circle")] [];
      DOM.Elem "edge" [("source", "a"); ("target", "ghost")] [];
      DOM.Elem "edge" [("source", "a"); ("target", "a")] [] ].

(** A node whose position and width are not numbers. *)
Definition not_numbers : DOM.Element :=
  DOM.Elem "node"
    [("id", "a"); ("label", "A"); ("x", "left"); ("y", "20");
     ("type", "circle"); ("width", "wide")] [].

Definition not_numbers_doc : DOM.Document :=
  DOM.Elem "graph" [] [not_numbers].

(** Tabular text: two good node rows, one without an id and one cut short;
    a good edge row and one without a source. *)
Definition table_nodes : string :=
  "id,label,x,y,type,height" ++ newline
  ++ "a,A,10,20,circle,80" ++ newline
  ++ ",C,1,1,circle,80" ++ newline
  ++ "b,B,30.5,40,rectangle,80" ++ newline
  ++ "d,D,1" ++ newline.

Definition table_edges : string :=
  newline
  ++ "source,target,name" ++ newline
  ++ "a,b,joins" ++ newline
  ++ ",a,lost" ++ newline.

Definition table : string := table_nodes ++ "---" ++ table_edges.

(** Tabular text with the style columns left out. *)
Definition plain_table : string :=
  "id,label,x,y,type" ++ newline
  ++ "a,A,10,20,circle" ++ newline
  ++ "---" ++ newline
  ++ "source,target" ++ newline
  ++ "a,a" ++ newline.

(** The same node as markup. *)
Definition plain_doc : DOM.Document :=
  DOM.Elem "graph" []
    [ DOM.Elem "node"
        [("id", "a"); ("label", "A"); ("x", "10"); ("y", "20");
         ("type", "circle")] [];
      DOM.Elem "edge" [("source", "a"); ("target", "a")] [] ].

(** Tabular text whose one node row has an empty [x] cell. *)
Definition empty_x_nodes : string :=
  "id,label,x,y,type" ++ newline ++ "a,A,,20,circle" ++ newline.

Definition empty_x_edges : string :=
  newline ++ "source,target" ++ newline ++ "a,a" ++ newline.

Definition empty_x_table : string := empty_x_nodes ++ "---" ++ empty_x_edges.

(** Tabular text without the separator. *)
Definition no_separator : string :=
  "id,label,x,y,type" ++ newline ++ "a,A,10,20,circle" ++ newline.

(** The state after [two_nodes] is imported and [a] is clicked, the graph
    it holds, and the record [a] was added with. *)
Definition a_selected : State :=
  handleNodeClick (Some (Given "a"))
    (processXML shapes (fun _ => two_nodes) "" mounted).

Definition a_graph : Graph :=
  match graph a_selected with
  | Some g => g
  | None => empty_graph
  end.

Definition a_meta : NodeMeta.t :=
  xmlNodeMeta
    (xmlNodeData
       (DOM.Elem "node"
          [("id", "a"); ("label", "A"); ("x", "10"); ("y", "20");
           ("type", "rectangle"); ("height", "80")] [])).

End Samples.

(* ------------------------------------------------------------------ *)
(** ** What is looked for in the states the component reaches *)

Module Reach.

Import X6 App.

(** An edge as the handlers leave it: a line of width 2, black or purple,
    solid or dashed in one of the two patterns, with the circle at its
    source and the diamond at its target. *)
Definition edge_decorated (m : EdgeMeta.t) : Prop :=
  let line := EdgeAttrs.line (EdgeMeta.attrs m) in
  Line.strokeWidth line = JS.of_Z 2
  /\ (Line.stroke line = "#000"%string \/ Line.stroke line = "purple"%string)
  /\ (Line.strokeDasharray line = None
      \/ Line.strokeDasharray line = Some "5, 5"%string
      \/ Line.strokeDasharray line = Some "2, 2"%string)
  /\ EdgeAttrs.sourceMarker (EdgeMeta.attrs m) = sourceMarker
  /\ EdgeAttrs.targetMarker (EdgeMeta.attrs m) = targetMarker.

(** A property of the graph, when there is one. *)
Definition of_graph (I : Graph -> Prop) (st : State) : Prop :=
  match graph st with
  | Some g => I g
  | None => True
  end.

(** A session: mount, upload [Samples.two_nodes] as markup, click [a];
    then copy it. *)
Definition session_parser (text : string) : DOM.Document := Samples.two_nodes.

Definition opening : list Event :=
  [ Mount;
    FileUpload (Some (File.mk "text/xml" (Loaded "<graph>")));
    NodeClick (Some (Given "a")) ].

Definition session : list Event := opening ++ [CopyNode].

Definition session_graph : Graph :=
  match graph (run Samples.shapes session_parser Papa.parse_nodes
                 Papa.parse_edges session initial) with
  | Some g => g
  | None => Samples.empty_graph
  end.

(** The state after [Samples.two_nodes] is imported. *)
Definition imported : State :=
  processXML Samples.shapes session_parser "<graph>" Samples.mounted.

(** The two [node] elements of [Samples.two_nodes]. *)
Definition node_a : DOM.Element :=
  DOM.Elem "node"
    [("id", "a"); ("label", "A"); ("x", "10"); ("y", "20");
     ("type", "rectangle"); ("height", "80")]%string [].

Definition node_b : DOM.Element :=
  DOM.Elem "node"
    [("id", "b"); ("label", "B"); ("x", "30"); ("y", "40");
     ("type", "circle"); ("height", "80")]%string [].

(** The two node rows of [Samples.table] that pass the guard. *)
Definition row_a : NodeRow.t :=
  NodeRow.mk (Some "a") (Some "A") (Some "10") (Some "20") (Some "circle")
    None None (Some "80") None None.

Definition row_b : NodeRow.t :=
  NodeRow.mk (Some "b") (Some "B") (Some "30.5") (Some "40") (Some "rectangle")
    None None (Some "80") None None.

(** A document with no [node] and no [edge] element. *)
Definition no_elements : DOM.Document :=
  DOM.Elem "parsererror" [] [DOM.Elem "sourcetext" [] []].

End Reach.

(* ------------------------------------------------------------------ *)
(** ** Strings and numerals *)

Section Strings.

Lemma append_empty_r (s : string) : (s ++ "")%string = s.
Proof. induction s as [| c s IH]; simpl; [reflexivity | now rewrite IH]. Qed.

Lemma append_assoc (a b c : string) :
  ((a ++ b) ++ c = a ++ (b ++ c))%string.
Proof. induction a as [| x a IH]; simpl; [reflexivity | now rewrite IH]. Qed.

(** A prefix test that succeeds exhibits the rest of the string. *)
Lemma starts_with_split (p s : string) :
  JS.starts_with p s = true -> exists rest, s = (p ++ rest)%string.
Proof.
  unfold JS.starts_with. revert s.
  induction p as [| c p IH]; intros s H.
  - exists s. reflexivity.
  - destruct s as [| d s]; simpl in H; [discriminate |].
    destruct (Ascii.ascii_dec c d) as [-> | ne]; [| discriminate].
    destruct (IH s H) as [rest ->]. exists rest. reflexivity.
Qed.

(** Without an occurrence of the separator, [split] returns the text in
    one piece. *)
Lemma split_from_whole (sep s cur : string) :
  ~ JS.includes sep s -> JS.split_from sep s 0 cur = [(cur ++ s)%string].
Proof.
  revert cur. induction s as [| c s IH]; intros cur H; cbn [JS.split_from].
  - now rewrite append_empty_r.
  - destruct (JS.starts_with sep (String c s)) eqn:E.
    + exfalso. apply H. destruct (starts_with_split _ _ E) as [rest ->].
      exists ""%string, rest. reflexivity.
    + rewrite IH.
      * rewrite append_assoc. reflexivity.
      * intros (before & after & ->). apply H.
        exists (String c before), after. reflexivity.
Qed.

Lemma starts_with_append (p rest : string) :
  JS.starts_with p (p ++ rest)%string = true.
Proof.
  unfold JS.starts_with. induction p as [| c p IH]; cbn [String.prefix append].
  - now destruct rest.
  - destruct (Ascii.ascii_dec c c) as [_ | ne]; [exact IH | now elim ne].
Qed.

(** The test [includes] makes finds every occurrence. *)
Lemma includes_includesb (sep s : string) :
  JS.includes sep s -> JS.includesb sep s = true.
Proof.
  intros (before & after & ->).
  induction before as [| c before IH]; cbn [append].
  - destruct (sep ++ after)%string eqn:E; cbn [JS.includesb];
      rewrite <- E, starts_with_append; reflexivity.
  - cbn [JS.includesb]. rewrite IH. apply orb_true_r.
Qed.

Lemma split_whole (sep s : string) :
  ~ JS.includes sep s -> JS.split sep s = [s].
Proof. intros H. unfold JS.split. now rewrite split_from_whole. Qed.

(** A text of digits is read to its end, as its value. *)
Lemma read_digits_all (s : string) :
  JS.all_digits s = true ->
  forall acc n,
    JS.read_digits s acc n
    = (fst (fst (JS.read_digits s acc n)), (n + String.length s)%nat, ""%string)
    /\ (0 <= acc -> 0 <= fst (fst (JS.read_digits s acc n)))%Z.
Proof.
  induction s as [| c s IH]; intros H acc n; cbn [JS.read_digits].
  - cbn. rewrite Nat.add_0_r. split; [reflexivity | auto].
  - cbn [JS.all_digits] in H. apply andb_true_iff in H as [Hc Hs].
    destruct (JS.digit c) as [d |] eqn:Hd; [| discriminate Hc].
    destruct (IH Hs (10 * acc + d)%Z (S n)) as [E Hpos].
    split.
    + rewrite E at 1. cbn [String.length]. now rewrite Nat.add_succ_r.
    + intros Hacc. apply Hpos.
      assert (0 <= d)%Z; [| lia].
      unfold JS.digit in Hd.
      destruct ((48 <=? nat_of_ascii c)%nat && (nat_of_ascii c <=? 57)%nat);
        [| discriminate]. injection Hd as <-. lia.
Qed.

(** A non-negative integer below [2^53] is its own Number value. *)
Lemma to_double_integer (z : Z) :
  (0 <= z < 2 ^ 53)%Z -> JS.to_double (inject_Z z) = JS.of_Z z.
Proof.
  intros Hz. unfold JS.to_double, JS.of_Z. cbn [Qnum Qden inject_Z].
  rewrite Z.abs_eq by lia.
  destruct (Z.eqb_spec z 0) as [-> | Hne]; [reflexivity |].
  assert (Hpos : (0 < z)%Z) by lia.
  pose proof (Z.log2_spec z Hpos) as [Hlo Hhi].
  assert (He : (0 <= Z.log2 z <= 52)%Z).
  { split; [apply Z.log2_nonneg |].
    assert (Z.log2 z < 53)%Z; [| lia]. apply Z.log2_lt_pow2; lia. }
  assert (Hlog : JS.log2_floor z 1 = Z.log2 z).
  { unfold JS.log2_floor. change (Z.log2 1) with 0%Z. rewrite Z.sub_0_r.
    rewrite Z.max_l by lia. rewrite Z.max_r by lia.
    change (2 ^ 0)%Z with 1%Z. rewrite Z.mul_1_l, Z.mul_1_r.
    destruct (Z.leb_spec (2 ^ Z.log2 z) z); [reflexivity | lia]. }
  rewrite Hlog. rewrite (Z.max_l (Z.log2 z - 52) (-1074)) by lia.
  rewrite (Z.max_r (Z.log2 z - 52) 0) by lia.
  rewrite (Z.max_l (- (Z.log2 z - 52)) 0) by lia.
  change (2 ^ 0)%Z with 1%Z.
  set (down := (2 ^ (- (Z.log2 z - 52)))%Z).
  assert (Hdown : (0 < down)%Z) by (apply Z.pow_pos_nonneg; lia).
  assert (Hk : JS.round_half_even (z * down) (1 * 1) = (z * down)%Z).
  { unfold JS.round_half_even. change (1 * 1)%Z with 1%Z.
    rewrite Z.mod_1_r, Z.div_1_r. reflexivity. }
  rewrite Hk, Z.mul_1_r.
  assert (Hsmall : (z * down < 2 ^ 1024)%Z).
  { assert (z * down < 2 ^ (Z.log2 z + 1) * down)%Z
      by (apply Z.mul_lt_mono_pos_r; lia).
    assert (2 ^ (Z.log2 z + 1) * down = 2 ^ 53)%Z.
    { unfold down. rewrite <- Z.pow_add_r by lia. f_equal. lia. }
    assert (2 ^ 53 < 2 ^ 1024)%Z by (apply Z.pow_lt_mono_r; lia). lia. }
  destruct (Z.leb_spec (2 ^ 1024) (z * down)); [lia |].
  f_equal. rewrite Z.sgn_pos by lia. rewrite Z.mul_1_l, Z.mul_1_r.
  rewrite (Qred_complete (z * down # Z.to_pos down) (inject_Z z)).
  - apply Qcanon.Qred_identity. cbn. apply Z.gcd_1_r.
  - unfold Qeq, inject_Z. cbn [Qnum Qden]. rewrite Z2Pos.id by lia. lia.
Qed.

(** A plain decimal integer below [2^53] is read as itself by both
    parsers. *)
Lemma plain_integer_parsed (s : string) (z : Z) :
  JS.plain_integer s = Some z ->
  (z < 2 ^ 53)%Z ->
  JS.parseInt s = JS.of_Z z /\ JS.parseFloat s = JS.of_Z z.
Proof.
  unfold JS.plain_integer. destruct s as [| c s]; [discriminate |].
  destruct (JS.all_digits (String c s)) eqn:Hall; [| discriminate].
  intros H Hlt.
  assert (Hz : fst (fst (JS.read_digits (String c s) 0 0)) = z) by congruence.
  clear H. destruct (read_digits_all _ Hall 0%Z 0%nat) as [E Hpos].
  rewrite Hz in E, Hpos. specialize (Hpos (Z.le_refl 0)).
  assert (Hc : JS.defined (JS.digit c) = true).
  { cbn [JS.all_digits] in Hall. now apply andb_true_iff in Hall. }
  assert (Hspace : JS.skip_space (String c s) = String c s).
  { cbn [JS.skip_space]. destruct (JS.is_space c) eqn:Hsp; [| reflexivity].
    exfalso. unfold JS.digit in Hc. unfold JS.is_space in Hsp.
    destruct (Nat.leb_spec 48 (nat_of_ascii c)); [| discriminate Hc].
    destruct (Nat.eqb_spec (nat_of_ascii c) 32); [lia |].
    destruct (Nat.leb_spec (nat_of_ascii c) 13); [lia |].
    rewrite andb_false_r in Hsp. discriminate Hsp. }
  assert (Hsign : JS.read_sign (String c s) = (false, String c s)).
  { unfold JS.read_sign.
    destruct (Ascii.ascii_dec c "-") as [-> | ?]; [discriminate Hc |].
    destruct (Ascii.ascii_dec c "+") as [-> | ?]; [discriminate Hc |].
    destruct c as [[] [] [] [] [] [] [] []]; try reflexivity; congruence. }
  assert (Hlen : exists k, (0 + String.length (String c s))%nat = S k)
    by (cbn; eauto).
  destruct Hlen as [k Hk].
  split.
  - unfold JS.parseInt. rewrite Hspace, Hsign, E, Hk. cbn [JS.signed].
    apply to_double_integer. lia.
  - unfold JS.parseFloat. rewrite Hspace, Hsign.
    assert (Hinf : JS.starts_with "Infinity" (String c s) = false).
    { unfold JS.starts_with. cbn [String.prefix].
      destruct (Ascii.ascii_dec "I" c) as [<- | ne]; [discriminate Hc | reflexivity]. }
    rewrite Hinf, E, Hk. cbn [JS.read_exponent JS.signed Z.of_nat Z.sub].
    unfold JS.scale10. cbn [Z.opp Z.leb Z.compare]. change (10 ^ 0)%Z with 1%Z.
    rewrite Z.mul_1_r. apply to_double_integer. lia.
Qed.

End Strings.

(* ------------------------------------------------------------------ *)
(** ** The store under a run of insertions *)

Section Store.

Import X6 App.

Lemma nodes_push (c : Cell) (g : Graph) :
  nodes (push c g) = nodes g ++ match c with Node _ m => [m] | Edge _ _ => [] end.
Proof.
  unfold nodes, push; cbn [cells]. rewrite flat_map_app. cbn [flat_map].
  now rewrite app_nil_r.
Qed.

Lemma edges_push (c : Cell) (g : Graph) :
  edges (push c g) = edges g ++ match c with Edge _ m => [m] | Node _ _ => [] end.
Proof.
  unfold edges, push; cbn [cells]. rewrite flat_map_app. cbn [flat_map].
  now rewrite app_nil_r.
Qed.

Lemma addEdges_edges (ms : list EdgeMeta.t) :
  forall g, edges (addEdges ms g) = edges g ++ ms.
Proof.
  unfold addEdges. induction ms as [| m ms IH]; intros g; cbn [fold_left].
  - now rewrite app_nil_r.
  - rewrite IH. cbn [addEdge snd]. rewrite edges_push, <- app_assoc.
    reflexivity.
Qed.

Lemma addEdges_nodes (ms : list EdgeMeta.t) :
  forall g, nodes (addEdges ms g) = nodes g.
Proof.
  unfold addEdges. induction ms as [| m ms IH]; intros g; cbn [fold_left].
  - reflexivity.
  - rewrite IH. cbn [addEdge snd]. rewrite nodes_push. now rewrite app_nil_r.
Qed.

Lemma cells_addEdges (ms : list EdgeMeta.t) :
  forall g, exists cs,
    cells (addEdges ms g) = cells g ++ cs
    /\ Forall (fun c => isNode c = false) cs
    /\ length cs = length ms.
Proof.
  unfold addEdges. induction ms as [| m ms IH]; intros g; cbn [fold_left].
  - exists []. now rewrite app_nil_r.
  - destruct (IH (snd (addEdge m g))) as (cs & Hc & Hn & Hl).
    exists (Edge (Generated (counter g)) m :: cs).
    rewrite Hc. cbn [addEdge snd push cells]. rewrite <- app_assoc.
    split; [reflexivity |]. split; [now constructor | cbn; now rewrite Hl].
Qed.

(** [edgesData.forEach] adds the rows that pass the guard and reports the
    others, each in turn. *)
Lemma csvEdgeSteps (rows : list EdgeData.t) :
  forall g log,
    fold_left csvEdgeStep rows (g, log)
    = (addEdges (map csvEdgeMeta (filter csvEdgeOk rows)) g,
       log ++ rejected csvEdgeOk InvalidEdgeData rows).
Proof.
  unfold rejected, addEdges.
  induction rows as [| r rows IH]; intros g log; cbn [fold_left filter map].
  - now rewrite app_nil_r.
  - unfold csvEdgeStep at 2. destruct (csvEdgeOk r); cbn [negb map fold_left].
    + apply IH.
    + rewrite IH, <- app_assoc. reflexivity.
Qed.

Variable registered : option string -> bool.

(** What one [graph.addNode] does to the store. *)
Lemma addNode_returns (m : NodeMeta.t) (g : Graph) (c : Cell) (g' : Graph) :
  addNode registered m g = Some (c, g') ->
  registered (NodeMeta.shape m) = true
  /\ c = Node (assign (NodeMeta.id m) g) m
  /\ (g' = g \/ g' = push c g).
Proof.
  unfold addNode. destruct (registered (NodeMeta.shape m)); [| discriminate].
  intros [= <- <-]. split; [reflexivity |]. split; [reflexivity |].
  cbn [cell_id]. destruct (assign (NodeMeta.id m) g); [| now right].
  destruct (held _ g); [now left | now right].
Qed.

Lemma addNode_throws (m : NodeMeta.t) (g : Graph) :
  addNode registered m g = None <-> registered (NodeMeta.shape m) = false.
Proof.
  unfold addNode. destruct (registered (NodeMeta.shape m));
    split; intros H; (discriminate H || reflexivity).
Qed.

(** What the node loop leaves in the store, however it ends: the cells
    that were there, then node cells only, each with one of the metadata
    of the loop, at most one per turn. *)
Lemma addNodes_cells (ms : list NodeMeta.t) :
  forall g, exists cs,
    cells (reached (addNodes registered ms g)) = cells g ++ cs
    /\ Forall (fun c => exists i m, c = Node i m /\ In m ms) cs
    /\ (length cs <= length ms)%nat.
Proof.
  induction ms as [| m ms IH]; intros g; cbn [addNodes].
  - exists []. cbn [reached]. rewrite app_nil_r.
    split; [reflexivity |]. split; [constructor | cbn; lia].
  - destruct (addNode registered m g) as [[c g'] |] eqn:E.
    + apply addNode_returns in E as (_ & -> & Hg').
      destruct (IH g') as (cs & Hc & Hall & Hlen).
      assert (Hall' : Forall (fun c => exists i m0, c = Node i m0 /\ In m0 (m :: ms)) cs).
      { apply (Forall_impl _ (P := fun c => exists i m0, c = Node i m0 /\ In m0 ms));
          [| exact Hall].
        intros c (i & m0 & -> & Hin). exists i, m0. split; [reflexivity | now right]. }
      destruct Hg' as [-> | ->].
      * exists cs. split; [exact Hc |]. split; [exact Hall' | cbn; lia].
      * exists (Node (assign (NodeMeta.id m) g) m :: cs).
        rewrite Hc. cbn [push cells]. rewrite <- app_assoc.
        split; [reflexivity |]. split; [| cbn; lia].
        constructor; [| exact Hall']. eexists _, _. split; [reflexivity | now left].
    + exists []. cbn [reached]. rewrite app_nil_r.
      split; [reflexivity |]. split; [constructor | cbn; lia].
Qed.

Lemma nodes_app_cells (g g' : Graph) (cs : list Cell) :
  cells g' = cells g ++ cs ->
  nodes g' = nodes g ++ flat_map (fun c => match c with Node _ m => [m] | Edge _ _ => [] end) cs
  /\ edges g' = edges g ++ flat_map (fun c => match c with Edge _ m => [m] | Node _ _ => [] end) cs.
Proof. intros H. unfold nodes, edges. rewrite H, !flat_map_app. auto. Qed.

Lemma addNodes_edges (ms : list NodeMeta.t) (g : Graph) :
  edges (reached (addNodes registered ms g)) = edges g.
Proof.
  destruct (addNodes_cells ms g) as (cs & Hc & Hall & _).
  rewrite (proj2 (nodes_app_cells _ _ _ Hc)). clear Hc.
  replace (flat_map _ cs) with (@nil EdgeMeta.t); [now rewrite app_nil_r |].
  symmetry. induction Hall as [| c cs (i & m & -> & _) _ IH]; [reflexivity |].
  exact IH.
Qed.

Lemma addNodes_nodes_from (ms : list NodeMeta.t) (g : Graph) (m : NodeMeta.t) :
  In m (nodes (reached (addNodes registered ms g))) -> In m (nodes g) \/ In m ms.
Proof.
  destruct (addNodes_cells ms g) as (cs & Hc & Hall & _).
  rewrite (proj1 (nodes_app_cells _ _ _ Hc)). intros H.
  apply in_app_or in H as [H | H]; [now left | right].
  apply in_flat_map in H as (c & Hin & Hm).
  rewrite Forall_forall in Hall. destruct (Hall c Hin) as (i & m0 & -> & Hm0).
  destruct Hm as [<- | []]. exact Hm0.
Qed.

(** The node loop runs to its end exactly when every shape is
    registered. *)
Lemma addNodes_completed (ms : list NodeMeta.t) :
  forall g,
    completed (addNodes registered ms g)
    = forallb (fun m => registered (NodeMeta.shape m)) ms.
Proof.
  induction ms as [| m ms IH]; intros g; cbn [addNodes forallb]; [reflexivity |].
  unfold addNode at 1.
  destruct (registered (NodeMeta.shape m)); [apply IH | reflexivity].
Qed.

(** The loop of [processCSV] over the node rows is the node loop over the
    rows that pass the guard; when it runs to its end the console has one
    more report per row turned away. *)
Lemma csvNodes_addNodes (rows : list NodeRow.t) :
  forall g log,
    fst (reached (csvNodes registered rows g log))
    = reached (addNodes registered (map csvNodeMeta (filter csvNodeOk rows)) g)
    /\ completed (csvNodes registered rows g log)
       = completed (addNodes registered
                      (map csvNodeMeta (filter csvNodeOk rows)) g)
    /\ (completed (csvNodes registered rows g log) = true ->
        snd (reached (csvNodes registered rows g log))
        = log ++ rejected csvNodeOk InvalidNodeData rows).
Proof.
  unfold rejected.
  induction rows as [| r rows IH]; intros g log; cbn [csvNodes filter].
  - cbn. now rewrite app_nil_r.
  - destruct (csvNodeOk r); cbn [negb map addNodes].
    + destruct (addNode registered (csvNodeMeta r) g) as [[c g'] |]; [apply IH |].
      cbn. repeat split. discriminate.
    + destruct (IH g (log ++ [InvalidNodeData r])) as (H1 & H2 & H3).
      split; [exact H1 |]. split; [exact H2 |].
      intros Hc. rewrite (H3 Hc), <- app_assoc. reflexivity.
Qed.

Lemma held_push (i : CellId) (c : Cell) (g : Graph) :
  held i (push c g) = held i g || CellId_eqb (cell_id c) i.
Proof.
  unfold held, push; cbn [cells]. rewrite existsb_app. cbn [existsb].
  now rewrite orb_false_r.
Qed.

(** With every shape registered and the identifiers asked for non-empty,
    distinct and not yet held, the node loop adds every node, in order. *)
Lemma addNodes_all (ms : list NodeMeta.t) :
  forall g,
    forallb (fun m => registered (NodeMeta.shape m)) ms = true ->
    NoDup (map NodeMeta.id ms) ->
    (forall m, In m ms ->
       exists i, NodeMeta.id m = Some i /\ i <> ""%string
                 /\ held (Given i) g = false) ->
    nodes (reached (addNodes registered ms g)) = nodes g ++ ms.
Proof.
  induction ms as [| m ms IH]; intros g Hreg Hnd Hids; cbn [addNodes].
  - cbn [reached]. now rewrite app_nil_r.
  - cbn [forallb] in Hreg. apply andb_true_iff in Hreg as [Hm Hreg].
    cbn [map] in Hnd. apply NoDup_cons_iff in Hnd as [Hnotin Hnd].
    destruct (Hids m (or_introl eq_refl)) as (i & Hi & Hne & Hheld).
    unfold addNode. rewrite Hm, Hi. unfold assign.
    destruct (String.eqb_spec i ""); [contradiction |].
    cbn [cell_id]. rewrite Hheld.
    rewrite IH; [| exact Hreg | exact Hnd |].
    + rewrite nodes_push, <- app_assoc. reflexivity.
    + intros m' Hm'. destruct (Hids m' (or_intror Hm')) as (i' & Hi' & Hne' & Hheld').
      exists i'. split; [exact Hi' |]. split; [exact Hne' |].
      rewrite held_push, Hheld'. cbn [cell_id CellId_eqb orb].
      destruct (String.eqb_spec i i') as [-> | ?]; [| reflexivity].
      exfalso. apply Hnotin. rewrite Hi, <- Hi'. now apply in_map.
Qed.

Variable parseFromString : string -> DOM.Document.
Variable Papa_parse_nodes : string -> list NodeRow.t.
Variable Papa_parse_edges : string -> list EdgeData.t.

(** [processXML] with a graph in place. *)
Lemma processXML_import (xmlContent : string) (st : State) (g : Graph) :
  graph st = Some g ->
  processXML registered parseFromString xmlContent st
  = match addNodes registered
            (map xmlNodeMeta (xmlNodes (parseFromString xmlContent)))
            (clearCells g) with
    | Completed g1 =>
        setGraph
          (addEdges (map xmlEdgeMeta (xmlEdges (parseFromString xmlContent))) g1)
          st
    | Threw g1 => setError xmlProcessingError (setGraph g1 st)
    end.
Proof. intros H. unfold processXML. now rewrite H. Qed.

(** [processCSV] on text without its two sections. *)
Lemma processCSV_fatal (csvContent : string) (st : State) :
  sections csvContent = None ->
  processCSV registered Papa_parse_nodes Papa_parse_edges csvContent st
  = setError csvInvalidFormat st.
Proof.
  unfold sections, processCSV.
  destruct (JS.split "---" csvContent) as [| n [| e rest]]; cbn [nth_error].
  - reflexivity.
  - intros _. cbn [JS.truthy]. now rewrite orb_true_r.
  - destruct (JS.truthy (Some n)), (JS.truthy (Some e)); cbn;
      intros H; (discriminate H || reflexivity).
Qed.

(** [processCSV] reads nothing of the text but its two sections. *)
Lemma processCSV_by_sections (csvContent : string) (st : State) :
  processCSV registered Papa_parse_nodes Papa_parse_edges csvContent st
  = match sections csvContent, graph st with
    | None, _ => setError csvInvalidFormat st
    | Some _, None => st
    | Some (nodesContent, edgesContent), Some g =>
        csvImport registered
          (Papa_parse_nodes (JS.trim nodesContent))
          (Papa_parse_edges (JS.trim edgesContent)) g st
    end.
Proof.
  destruct (sections csvContent) as [[n e] |] eqn:Hs;
    [| now apply processCSV_fatal].
  unfold sections in Hs. unfold processCSV.
  destruct (JS.split "---" csvContent) as [| n' [| e' rest]];
    [discriminate | discriminate |].
  cbn [nth_error].
  destruct (JS.truthy (Some n')), (JS.truthy (Some e')); try discriminate.
  injection Hs as <- <-. reflexivity.
Qed.

Lemma processCSV_import (csvContent nodesContent edgesContent : string)
  (st : State) (g : Graph) :
  sections csvContent = Some (nodesContent, edgesContent) ->
  graph st = Some g ->
  processCSV registered Papa_parse_nodes Papa_parse_edges csvContent st
  = csvImport registered
      (Papa_parse_nodes (JS.trim nodesContent))
      (Papa_parse_edges (JS.trim edgesContent)) g st.
Proof. intros Hs Hg. now rewrite processCSV_by_sections, Hs, Hg. Qed.

(** The store and the console after [csvImport], by how the node loop
    ends. *)
Lemma csvImport_graph (nodesData : list NodeRow.t) (edgesData : list EdgeData.t)
  (g : Graph) (st : State) :
  let loop := addNodes registered (map csvNodeMeta (filter csvNodeOk nodesData))
                (clearCells g) in
  graph (csvImport registered nodesData edgesData g st)
  = Some (if completed loop
          then addEdges (map csvEdgeMeta (filter csvEdgeOk edgesData))
                 (reached loop)
          else reached loop)
  /\ showModal (csvImport registered nodesData edgesData g st) = showModal st
  /\ selectedNode (csvImport registered nodesData edgesData g st)
     = selectedNode st
  /\ (completed loop = true ->
      error (csvImport registered nodesData edgesData g st) = error st
      /\ console (csvImport registered nodesData edgesData g st)
         = console st
           ++ rejected csvNodeOk InvalidNodeData nodesData
           ++ rejected csvEdgeOk InvalidEdgeData edgesData)
  /\ (completed loop = false ->
      error (csvImport registered nodesData edgesData g st)
      = Some csvProcessingError).
Proof.
  intros loop. subst loop. unfold csvImport.
  destruct (csvNodes_addNodes nodesData (clearCells g) (console st))
    as (H1 & H2 & H3).
  rewrite <- H1, <- H2.
  destruct (csvNodes registered nodesData (clearCells g) (console st))
    as [[g1 log] | [g1 log]]; cbn [completed reached fst snd] in *.
  - rewrite csvEdgeSteps. cbn [graph showModal selectedNode error console].
    repeat split; try discriminate. rewrite (H3 eq_refl), <- app_assoc.
    reflexivity.
  - cbn [graph showModal selectedNode error console].
    repeat split; discriminate.
Qed.

End Store.
(* ------------------------------------------------------------------ *)
(** ** Listing and counting the elements of a document *)

Section Documents.

Lemma filter_flat_map {A B : Type} (p : B -> bool) (f : A -> list B) (l : list A) :
  filter p (flat_map f l) = flat_map (fun a => filter p (f a)) l.
Proof.
  induction l as [| a l IH]; cbn [flat_map]; [reflexivity |].
  now rewrite filter_app, IH.
Qed.

Lemma length_flat_map {A B : Type} (f : A -> list B) (l : list A) :
  length (flat_map f l) = list_sum (map (fun a => length (f a)) l).
Proof.
  induction l as [| a l IH]; cbn [flat_map map]; [reflexivity |].
  change (list_sum (?n :: ?k)) with (n + list_sum k)%nat.
  now rewrite length_app, IH.
Qed.

(** The listing by tag has as many elements as the tree has elements with
    that tag. *)
Lemma getElementsByTagName_count (tag : string) :
  forall e : DOM.Element,
    length (DOM.getElementsByTagName tag e) = DOM.count_elements tag e.
Proof.
  unfold DOM.getElementsByTagName.
  fix IH 1. intros [t a cs].
  cbn [DOM.subtree DOM.count_elements filter DOM.tagName].
  assert (Hcs : length (filter (fun e => DOM.tagName e =? tag)
                          (flat_map DOM.subtree cs))
                = list_sum (map (DOM.count_elements tag) cs)).
  { rewrite filter_flat_map, length_flat_map.
    induction cs as [| c cs IHcs]; cbn [map]; [reflexivity |].
    change (list_sum (?n :: ?l)) with (n + list_sum l)%nat.
    f_equal; [apply IH | exact IHcs]. }
  destruct (t =? tag); cbn [length Nat.add]; now rewrite Hcs.
Qed.

End Documents.

(* ------------------------------------------------------------------ *)
(** ** Small facts about the guards *)

Section Guards.

Import X6 App.

Lemma CellId_eqb_eq (a b : CellId) : CellId_eqb a b = true -> a = b.
Proof.
  destruct a, b; cbn [CellId_eqb]; intros H; try discriminate.
  - apply String.eqb_eq in H. now subst.
  - apply Nat.eqb_eq in H. now subst.
Qed.

Lemma getCellById_id (i : CellId) (g : Graph) (c : Cell) :
  getCellById i g = Some c -> In c (cells g) /\ cell_id c = i.
Proof.
  unfold getCellById. intros H. apply find_some in H as [Hin Heq].
  split; [assumption | now apply CellId_eqb_eq].
Qed.

Lemma is_rectangle_true (type : option string) :
  is_rectangle type = true <-> type = Some "rectangle"%string.
Proof.
  destruct type as [t |]; cbn [is_rectangle].
  - rewrite String.eqb_eq. split; [now intros -> | now intros [= ->]].
  - split; discriminate.
Qed.

Lemma is_rectangle_false (type : option string) :
  type <> Some "rectangle"%string -> is_rectangle type = false.
Proof.
  intros H. destruct (is_rectangle type) eqn:E; [| reflexivity].
  now apply is_rectangle_true in E.
Qed.

Lemma or_else_falsy (o : option string) (d : string) :
  JS.truthy o = false -> JS.or_else o d = d.
Proof.
  destruct o as [s |]; cbn [JS.truthy JS.or_else]; [| reflexivity].
  now destruct (s =? "")%string.
Qed.

(** [(name || undefined) || ''] is the name when there is one. *)
Lemma name_or_empty (o : option string) :
  JS.or_else (JS.or_undefined o) "" = match o with Some s => s | None => ""%string end.
Proof.
  destruct o as [s |]; [| reflexivity].
  unfold JS.or_undefined, JS.truthy.
  destruct (s =? "")%string eqn:E; cbn [negb JS.or_else].
  - apply String.eqb_eq in E. now subst.
  - now rewrite E.
Qed.

(** What each guard of [processCSV] turns away. *)
Lemma csvNodeOk_false (node : NodeRow.t) :
  csvNodeOk node = false <->
  JS.truthy (NodeRow.id node) = false \/ JS.truthy (NodeRow.label node) = false
  \/ NodeRow.x node = None \/ NodeRow.y node = None
  \/ JS.truthy (NodeRow.type node) = false.
Proof.
  unfold csvNodeOk.
  destruct (JS.truthy (NodeRow.id node)), (JS.truthy (NodeRow.label node)),
    (NodeRow.x node), (NodeRow.y node), (JS.truthy (NodeRow.type node));
    cbn; intuition congruence.
Qed.

Lemma csvEdgeOk_false (edge : EdgeData.t) :
  csvEdgeOk edge = false <->
  JS.truthy (EdgeData.source edge) = false \/ JS.truthy (EdgeData.target edge) = false.
Proof.
  unfold csvEdgeOk.
  destruct (JS.truthy (EdgeData.source edge)), (JS.truthy (EdgeData.target edge));
    cbn; intuition congruence.
Qed.

(** [handleCopyNode] with a graph in place and a node of it selected whose
    shape is registered: the store draws the next two identifiers, for the
    copy and for the edge. *)
Lemma handleCopyNode_copy (registered : option string -> bool)
  (st : State) (g : Graph) (sel clicked : CellId) (meta : NodeMeta.t) :
  graph st = Some g ->
  selected (selectedNode st) = Some sel ->
  getCellById sel g = Some (Node clicked meta) ->
  registered (NodeMeta.shape meta) = true ->
  handleCopyNode registered st
  = setShowModal false
      (setGraph
         (push (Edge (Generated (S (counter g)))
                  (copyEdgeMeta clicked (Generated (counter g))))
            (push (Node (Generated (counter g)) (copyNodeMeta (toJSON meta))) g))
         st).
Proof.
  intros Hg Hsel Hcell Hreg. unfold handleCopyNode, addNode.
  rewrite Hg, Hsel, Hcell. cbn [copyNodeMeta toJSON NodeMeta.shape NodeJSON.shape].
  now rewrite Hreg.
Qed.

(** A test by [forallb] on a mapped list is the test on the list. *)
Lemma forallb_map {A B : Type} (f : A -> B) (p : B -> bool) (l : list A) :
  forallb p (map f l) = forallb (fun a => p (f a)) l.
Proof.
  induction l as [| a l IH]; cbn [map forallb]; [reflexivity | now rewrite IH].
Qed.

(** Text without the separator has no sections. *)
Lemma sections_without_separator (csvContent : string) :
  ~ JS.includes "---" csvContent -> sections csvContent = None.
Proof. intros H. unfold sections. now rewrite split_whole. Qed.

End Guards.

(* ------------------------------------------------------------------ *)
(** ** The import handlers *)

Section ImportHandlers.

Import X6 App.

Variable registered : option string -> bool.
Variable parseFromString : string -> DOM.Document.
Variable Papa_parse_nodes : string -> list NodeRow.t.
Variable Papa_parse_edges : string -> list EdgeData.t.

(** The state after [processXML], by how the node loop ends. *)
Lemma processXML_graph (xmlContent : string) (st : State) (g : Graph) :
  graph st = Some g ->
  let loop := addNodes registered
                (map xmlNodeMeta (xmlNodes (parseFromString xmlContent)))
                (clearCells g) in
  graph (processXML registered parseFromString xmlContent st)
  = Some (if completed loop
          then addEdges (map xmlEdgeMeta (xmlEdges (parseFromString xmlContent)))
                 (reached loop)
          else reached loop)
  /\ console (processXML registered parseFromString xmlContent st) = console st
  /\ (completed loop = true ->
      error (processXML registered parseFromString xmlContent st) = error st)
  /\ (completed loop = false ->
      error (processXML registered parseFromString xmlContent st)
      = Some xmlProcessingError).
Proof.
  intros Hg loop. subst loop. rewrite (processXML_import _ _ _ _ _ Hg).
  destruct (addNodes registered _ (clearCells g)) as [g1 | g1];
    cbn; repeat split; discriminate.
Qed.

(** Whatever an import leaves in the store was built from its input: each
    node from a [node] element or a node row that passes the guard, each
    edge from an [edge] element or an edge row that passes the guard. *)
Lemma processXML_store_from (xmlContent : string) (st : State) (g : Graph) :
  graph st = Some g ->
  exists g',
    graph (processXML registered parseFromString xmlContent st) = Some g'
    /\ (forall meta, In meta (nodes g') ->
          exists node,
            In node (DOM.getElementsByTagName "node" (parseFromString xmlContent))
            /\ meta = xmlNodeMeta (xmlNodeData node))
    /\ (forall meta, In meta (edges g') ->
          exists edge,
            In edge (DOM.getElementsByTagName "edge" (parseFromString xmlContent))
            /\ meta = xmlEdgeMeta (xmlEdgeData edge)).
Proof.
  intros Hg. destruct (processXML_graph xmlContent st g Hg) as (Hgraph & _).
  eexists. split; [exact Hgraph |].
  assert (Hn : forall meta loopg,
             loopg = reached (addNodes registered
                       (map xmlNodeMeta (xmlNodes (parseFromString xmlContent)))
                       (clearCells g)) ->
             In meta (nodes loopg) ->
             exists node,
               In node (DOM.getElementsByTagName "node"
                          (parseFromString xmlContent))
               /\ meta = xmlNodeMeta (xmlNodeData node)).
  { intros meta loopg -> H. apply addNodes_nodes_from in H as [[] | H].
    unfold xmlNodes in H. rewrite map_map in H.
    apply in_map_iff in H as (node & <- & Hin). now exists node. }
  destruct (completed _).
  - split.
    + intros meta H. rewrite addEdges_nodes in H. now apply (Hn meta _ eq_refl).
    + intros meta H. rewrite addEdges_edges, addNodes_edges in H.
      cbn [clearCells edges cells flat_map app] in H.
      unfold xmlEdges in H. rewrite map_map in H.
      apply in_map_iff in H as (edge & <- & Hin). now exists edge.
  - split.
    + intros meta H. now apply (Hn meta _ eq_refl).
    + intros meta H. rewrite addNodes_edges in H. destruct H.
Qed.

Lemma processCSV_store_from
  (csvContent nodesContent edgesContent : string) (st : State) (g : Graph) :
  graph st = Some g ->
  sections csvContent = Some (nodesContent, edgesContent) ->
  exists g',
    graph (processCSV registered Papa_parse_nodes Papa_parse_edges csvContent st)
    = Some g'
    /\ (forall meta, In meta (nodes g') ->
          exists node,
            In node (Papa_parse_nodes (JS.trim nodesContent))
            /\ csvNodeOk node = true /\ meta = csvNodeMeta node)
    /\ (forall meta, In meta (edges g') ->
          exists edge,
            In edge (Papa_parse_edges (JS.trim edgesContent))
            /\ csvEdgeOk edge = true /\ meta = csvEdgeMeta edge).
Proof.
  intros Hg Hs. rewrite (processCSV_import _ _ _ _ _ _ _ _ Hs Hg).
  destruct (csvImport_graph registered (Papa_parse_nodes (JS.trim nodesContent))
              (Papa_parse_edges (JS.trim edgesContent)) g st) as (Hgraph & _).
  eexists. split; [exact Hgraph |].
  assert (Hn : forall meta loopg,
             loopg = reached (addNodes registered
                       (map csvNodeMeta
                          (filter csvNodeOk
                             (Papa_parse_nodes (JS.trim nodesContent))))
                       (clearCells g)) ->
             In meta (nodes loopg) ->
             exists node,
               In node (Papa_parse_nodes (JS.trim nodesContent))
               /\ csvNodeOk node = true /\ meta = csvNodeMeta node).
  { intros meta loopg -> H. apply addNodes_nodes_from in H as [[] | H].
    apply in_map_iff in H as (node & <- & Hin).
    apply filter_In in Hin as [Hin Hok]. now exists node. }
  destruct (completed _).
  - split.
    + intros meta H. rewrite addEdges_nodes in H. now apply (Hn meta _ eq_refl).
    + intros meta H. rewrite addEdges_edges, addNodes_edges in H.
      cbn [clearCells edges cells flat_map app] in H.
      apply in_map_iff in H as (edge & <- & Hin).
      apply filter_In in Hin as [Hin Hok]. now exists edge.
  - split.
    + intros meta H. now apply (Hn meta _ eq_refl).
    + intros meta H. rewrite addNodes_edges in H. destruct H.
Qed.

(** C1, as amended.  Neither import checks an edge's endpoints against the
    nodes.  With a graph in place and every node of the import of a
    registered shape, so that no [addNode] throws: a markup import leaves
    in the store one edge per [edge] element, in document order, and
    reports nothing; a tabular import leaves one edge per edge row whose
    source and target are both present and non-empty, in row order, and
    reports exactly the rows its two guards turn away.  A row is turned
    away by the edge guard only for a missing or empty source or target,
    so every other edge is inserted whatever its endpoints are. *)
Theorem C1_edges_inserted_without_endpoint_check
  (xmlContent csvContent nodesContent edgesContent : string)
  (st : State) (g : Graph) :
  graph st = Some g ->
  sections csvContent = Some (nodesContent, edgesContent) ->
  forallb (fun node => registered (DOM.getAttribute "type" node))
    (DOM.getElementsByTagName "node" (parseFromString xmlContent)) = true ->
  forallb (fun node => registered (NodeRow.type node))
    (filter csvNodeOk (Papa_parse_nodes (JS.trim nodesContent))) = true ->
  (exists g',
      graph (processXML registered parseFromString xmlContent st) = Some g'
      /\ edges g' = map xmlEdgeMeta (xmlEdges (parseFromString xmlContent))
      /\ console (processXML registered parseFromString xmlContent st)
         = console st)
  /\ (exists g',
         graph (processCSV registered Papa_parse_nodes Papa_parse_edges
                  csvContent st) = Some g'
         /\ edges g'
            = map csvEdgeMeta
                (filter csvEdgeOk (Papa_parse_edges (JS.trim edgesContent)))
         /\ console (processCSV registered Papa_parse_nodes Papa_parse_edges
                       csvContent st)
            = console st
              ++ rejected csvNodeOk InvalidNodeData
                   (Papa_parse_nodes (JS.trim nodesContent))
              ++ rejected csvEdgeOk InvalidEdgeData
                   (Papa_parse_edges (JS.trim edgesContent)))
  /\ (forall edge,
         csvEdgeOk edge = false <->
         JS.truthy (EdgeData.source edge) = false
         \/ JS.truthy (EdgeData.target edge) = false).
Proof.
  intros Hg Hs Hx Hc. split; [| split].
  - destruct (processXML_graph xmlContent st g Hg) as (Hgraph & Hcons & _).
    rewrite addNodes_completed in Hgraph. unfold xmlNodes in Hgraph at 1.
    rewrite !forallb_map in Hgraph.
    cbn [xmlNodeMeta xmlNodeData NodeMeta.shape NodeData.type] in Hgraph.
    rewrite Hx in Hgraph.
    eexists. split; [exact Hgraph |]. split; [| exact Hcons].
    now rewrite addEdges_edges, addNodes_edges.
  - rewrite (processCSV_import _ _ _ _ _ _ _ _ Hs Hg).
    destruct (csvImport_graph registered (Papa_parse_nodes (JS.trim nodesContent))
                (Papa_parse_edges (JS.trim edgesContent)) g st)
      as (Hgraph & _ & _ & Hdone & _).
    rewrite addNodes_completed, forallb_map in Hgraph, Hdone.
    cbn [csvNodeMeta NodeMeta.shape] in Hgraph, Hdone.
    rewrite Hc in Hgraph, Hdone.
    eexists. split; [exact Hgraph |]. split; [| apply (Hdone eq_refl)].
    now rewrite addEdges_edges, addNodes_edges.
  - apply csvEdgeOk_false.
Qed.

(** C3, as amended.  A numeric field that is missing (or empty) gets its
    default, a finite number: width and height 100 and stroke width 1 in
    the record built from a [node] element; width 100, height 100 for a
    type other than [rectangle], and stroke width 1 in what a node row
    hands to the store.  The parsers are total, so the step cannot fail. *)
Theorem C3_missing_numeric_field_defaults (node : DOM.Element) (row : NodeRow.t) :
  (JS.truthy (DOM.getAttribute "width" node) = false
   -> NodeData.width (xmlNodeData node) = JS.of_Z 100)
  /\ (JS.truthy (DOM.getAttribute "height" node) = false
      -> NodeData.height (xmlNodeData node) = JS.of_Z 100)
  /\ (JS.truthy (DOM.getAttribute "strokeWidth" node) = false
      -> NodeData.strokeWidth (xmlNodeData node) = JS.of_Z 1)
  /\ (JS.truthy (NodeRow.width row) = false
      -> NodeMeta.width (csvNodeMeta row) = Some (JS.of_Z 100))
  /\ (JS.truthy (NodeRow.height row) = false
      -> NodeRow.type row <> Some "rectangle"
      -> NodeMeta.height (csvNodeMeta row) = Some (JS.of_Z 100))
  /\ (JS.truthy (NodeRow.strokeWidth row) = false
      -> Body.strokeWidth (NodeAttrs.body (NodeMeta.attrs (csvNodeMeta row)))
         = JS.VNumber (JS.of_Z 1))
  /\ JS.isFinite (JS.of_Z 100) = true
  /\ JS.isFinite (JS.of_Z 1) = true.
Proof.
  repeat split.
  - intros H. cbn [xmlNodeData NodeData.width]. now rewrite (or_else_falsy _ _ H).
  - intros H. cbn [xmlNodeData NodeData.height]. now rewrite (or_else_falsy _ _ H).
  - intros H. cbn [xmlNodeData NodeData.strokeWidth].
    now rewrite (or_else_falsy _ _ H).
  - intros H. cbn [csvNodeMeta NodeMeta.width]. now rewrite (or_else_falsy _ _ H).
  - intros H Ht. cbn [csvNodeMeta NodeMeta.height].
    now rewrite (is_rectangle_false _ Ht), (or_else_falsy _ _ H).
  - cbn [csvNodeMeta NodeMeta.attrs NodeAttrs.body Body.strokeWidth].
    unfold csvStrokeWidth, JS.truthy.
    destruct (NodeRow.strokeWidth row) as [s |]; [| reflexivity].
    destruct (s =? "")%string; [reflexivity | discriminate].
Qed.

(** C4, as amended.  With a graph in place, every node an import leaves in
    the store was built from a [node] element or a node row of the input,
    has a defined fill and stroke width, and on the markup path a defined
    stroke; its x (and likewise its y) is the number read from the x text
    of that element or row, which is that integer itself, and so finite,
    when the text is a plain decimal integer below [2^53]. *)
Theorem C4_imported_nodes
  (xmlContent csvContent nodesContent edgesContent : string)
  (st : State) (g : Graph) :
  graph st = Some g ->
  sections csvContent = Some (nodesContent, edgesContent) ->
  (exists g',
      graph (processXML registered parseFromString xmlContent st) = Some g'
      /\ Forall
           (fun meta =>
              exists node,
                In node (DOM.getElementsByTagName "node"
                           (parseFromString xmlContent))
                /\ JS.resolved (Body.fill (NodeAttrs.body (NodeMeta.attrs meta)))
                   = true
                /\ JS.resolved (Body.stroke (NodeAttrs.body (NodeMeta.attrs meta)))
                   = true
                /\ JS.resolved
                     (Body.strokeWidth (NodeAttrs.body (NodeMeta.attrs meta)))
                   = true
                /\ NodeMeta.x meta
                   = JS.parseInt (JS.ToString (DOM.getAttribute "x" node))
                /\ NodeMeta.y meta
                   = JS.parseInt (JS.ToString (DOM.getAttribute "y" node))
                /\ (forall text z,
                       DOM.getAttribute "x" node = Some text ->
                       JS.plain_integer text = Some z -> (z < 2 ^ 53)%Z ->
                       NodeMeta.x meta = JS.of_Z z
                       /\ JS.isFinite (NodeMeta.x meta) = true)
                /\ (forall text z,
                       DOM.getAttribute "y" node = Some text ->
                       JS.plain_integer text = Some z -> (z < 2 ^ 53)%Z ->
                       NodeMeta.y meta = JS.of_Z z
                       /\ JS.isFinite (NodeMeta.y meta) = true))
           (nodes g'))
  /\ (exists g',
         graph (processCSV registered Papa_parse_nodes Papa_parse_edges
                  csvContent st) = Some g'
         /\ Forall
              (fun meta =>
                 exists node,
                   In node (Papa_parse_nodes (JS.trim nodesContent))
                   /\ csvNodeOk node = true
                   /\ JS.resolved
                        (Body.fill (NodeAttrs.body (NodeMeta.attrs meta)))
                      = true
                   /\ JS.resolved
                        (Body.strokeWidth (NodeAttrs.body (NodeMeta.attrs meta)))
                      = true
                   /\ NodeMeta.x meta
                      = JS.parseFloat (JS.ToString (NodeRow.x node))
                   /\ NodeMeta.y meta
                      = JS.parseFloat (JS.ToString (NodeRow.y node))
                   /\ (forall text z,
                          NodeRow.x node = Some text ->
                          JS.plain_integer text = Some z -> (z < 2 ^ 53)%Z ->
                          NodeMeta.x meta = JS.of_Z z
                          /\ JS.isFinite (NodeMeta.x meta) = true)
                   /\ (forall text z,
                          NodeRow.y node = Some text ->
                          JS.plain_integer text = Some z -> (z < 2 ^ 53)%Z ->
                          NodeMeta.y meta = JS.of_Z z
                          /\ JS.isFinite (NodeMeta.y meta) = true))
              (nodes g')).
Proof.
  intros Hg Hs. split.
  - destruct (processXML_store_from xmlContent st g Hg) as (g' & Hg' & Hn & _).
    exists g'. split; [exact Hg' |]. apply Forall_forall. intros meta Hm.
    destruct (Hn meta Hm) as (node & Hin & ->). exists node.
    split; [exact Hin |]. repeat split.
    + cbn [xmlNodeMeta xmlNodeData NodeMeta.x NodeData.x]. rewrite H. cbn [JS.ToString].
      now rewrite (proj1 (plain_integer_parsed _ _ H0 H1)).
    + cbn [xmlNodeMeta xmlNodeData NodeMeta.x NodeData.x]. rewrite H. cbn [JS.ToString].
      now rewrite (proj1 (plain_integer_parsed _ _ H0 H1)).
    + cbn [xmlNodeMeta xmlNodeData NodeMeta.y NodeData.y]. rewrite H. cbn [JS.ToString].
      now rewrite (proj1 (plain_integer_parsed _ _ H0 H1)).
    + cbn [xmlNodeMeta xmlNodeData NodeMeta.y NodeData.y]. rewrite H. cbn [JS.ToString].
      now rewrite (proj1 (plain_integer_parsed _ _ H0 H1)).
  - destruct (processCSV_store_from csvContent nodesContent edgesContent st g Hg Hs)
      as (g' & Hg' & Hn & _).
    exists g'. split; [exact Hg' |]. apply Forall_forall. intros meta Hm.
    destruct (Hn meta Hm) as (node & Hin & Hok & ->). exists node.
    split; [exact Hin |]. split; [exact Hok |]. split; [reflexivity |].
    split.
    { cbn [csvNodeMeta NodeMeta.attrs NodeAttrs.body Body.strokeWidth].
      unfold csvStrokeWidth. destruct (NodeRow.strokeWidth node) as [s |];
        [destruct (s =? "")%string |]; reflexivity. }
    repeat split.
    + cbn [csvNodeMeta NodeMeta.x]. rewrite H. cbn [JS.ToString].
      now rewrite (proj2 (plain_integer_parsed _ _ H0 H1)).
    + cbn [csvNodeMeta NodeMeta.x]. rewrite H. cbn [JS.ToString].
      now rewrite (proj2 (plain_integer_parsed _ _ H0 H1)).
    + cbn [csvNodeMeta NodeMeta.y]. rewrite H. cbn [JS.ToString].
      now rewrite (proj2 (plain_integer_parsed _ _ H0 H1)).
    + cbn [csvNodeMeta NodeMeta.y]. rewrite H. cbn [JS.ToString].
      now rewrite (proj2 (plain_integer_parsed _ _ H0 H1)).
Qed.

(** C5.  Tabular text in which the separator [---] does not occur is
    turned away as a whole: the only change to the state is the error
    banner, set to the one message; the graph is the one that was there
    (it is not cleared) and nothing is written to the console. *)
Theorem C5_no_separator_no_mutation (csvContent : string) (st : State) :
  ~ JS.includes "---" csvContent ->
  processCSV registered Papa_parse_nodes Papa_parse_edges csvContent st
  = setError csvInvalidFormat st
  /\ graph (processCSV registered Papa_parse_nodes Papa_parse_edges csvContent st)
     = graph st
  /\ error (processCSV registered Papa_parse_nodes Papa_parse_edges csvContent st)
     = Some csvInvalidFormat
  /\ console (processCSV registered Papa_parse_nodes Papa_parse_edges
                csvContent st) = console st.
Proof.
  intros H. apply sections_without_separator in H.
  rewrite (processCSV_fatal _ _ _ _ _ H). repeat split.
Qed.

(** C6.  The height either import asks for is 50 when the type is
    [rectangle], whatever height was supplied, and otherwise the supplied
    height text, or ["100"] when there is none, parsed as the import path
    parses it.  With a graph in place, every node the import leaves in the
    store was built from a [node] element or a guard-passing node row and
    has that height. *)
Theorem C6_rectangle_height_forced
  (xmlContent csvContent nodesContent edgesContent : string)
  (st : State) (g : Graph) :
  graph st = Some g ->
  sections csvContent = Some (nodesContent, edgesContent) ->
  (forall node,
      (DOM.getAttribute "type" node = Some "rectangle"
       -> NodeMeta.height (xmlNodeMeta (xmlNodeData node)) = Some (JS.of_Z 50))
      /\ (DOM.getAttribute "type" node <> Some "rectangle"
          -> NodeMeta.height (xmlNodeMeta (xmlNodeData node))
             = Some (JS.parseInt
                       (JS.or_else (DOM.getAttribute "height" node) "100"))))
  /\ (forall row,
         (NodeRow.type row = Some "rectangle"
          -> NodeMeta.height (csvNodeMeta row) = Some (JS.of_Z 50))
         /\ (NodeRow.type row <> Some "rectangle"
             -> NodeMeta.height (csvNodeMeta row)
                = Some (JS.parseFloat (JS.or_else (NodeRow.height row) "100"))))
  /\ (exists g',
         graph (processXML registered parseFromString xmlContent st) = Some g'
         /\ Forall
              (fun meta =>
                 exists node,
                   In node (DOM.getElementsByTagName "node"
                              (parseFromString xmlContent))
                   /\ NodeMeta.id meta = DOM.getAttribute "id" node
                   /\ NodeMeta.shape meta = DOM.getAttribute "type" node
                   /\ (DOM.getAttribute "type" node = Some "rectangle"
                       -> NodeMeta.height meta = Some (JS.of_Z 50))
                   /\ (DOM.getAttribute "type" node <> Some "rectangle"
                       -> NodeMeta.height meta
                          = Some (JS.parseInt
                                    (JS.or_else (DOM.getAttribute "height" node)
                                       "100"))))
              (nodes g'))
  /\ (exists g',
         graph (processCSV registered Papa_parse_nodes Papa_parse_edges
                  csvContent st) = Some g'
         /\ Forall
              (fun meta =>
                 exists row,
                   In row (Papa_parse_nodes (JS.trim nodesContent))
                   /\ csvNodeOk row = true
                   /\ NodeMeta.id meta = NodeRow.id row
                   /\ NodeMeta.shape meta = NodeRow.type row
                   /\ (NodeRow.type row = Some "rectangle"
                       -> NodeMeta.height meta = Some (JS.of_Z 50))
                   /\ (NodeRow.type row <> Some "rectangle"
                       -> NodeMeta.height meta
                          = Some (JS.parseFloat
                                    (JS.or_else (NodeRow.height row) "100"))))
              (nodes g')).
Proof.
  intros Hg Hs.
  assert (Hx : forall node,
             (DOM.getAttribute "type" node = Some "rectangle"
              -> NodeMeta.height (xmlNodeMeta (xmlNodeData node))
                 = Some (JS.of_Z 50))
             /\ (DOM.getAttribute "type" node <> Some "rectangle"
                 -> NodeMeta.height (xmlNodeMeta (xmlNodeData node))
                    = Some (JS.parseInt
                              (JS.or_else (DOM.getAttribute "height" node)
                                 "100")))).
  { intros node. cbn [xmlNodeMeta xmlNodeData NodeMeta.height NodeData.type
                      NodeData.height]. split; intros H.
    - now rewrite (proj2 (is_rectangle_true _) H).
    - now rewrite (is_rectangle_false _ H). }
  assert (Hc : forall row,
             (NodeRow.type row = Some "rectangle"
              -> NodeMeta.height (csvNodeMeta row) = Some (JS.of_Z 50))
             /\ (NodeRow.type row <> Some "rectangle"
                 -> NodeMeta.height (csvNodeMeta row)
                    = Some (JS.parseFloat
                              (JS.or_else (NodeRow.height row) "100")))).
  { intros row. cbn [csvNodeMeta NodeMeta.height]. split; intros H.
    - now rewrite (proj2 (is_rectangle_true _) H).
    - now rewrite (is_rectangle_false _ H). }
  split; [exact Hx |]. split; [exact Hc |]. split.
  - destruct (processXML_store_from xmlContent st g Hg) as (g' & Hg' & Hn & _).
    exists g'. split; [exact Hg' |]. apply Forall_forall. intros meta Hm.
    destruct (Hn meta Hm) as (node & Hin & ->). exists node.
    split; [exact Hin |]. split; [reflexivity |]. split; [reflexivity |].
    apply Hx.
  - destruct (processCSV_store_from csvContent nodesContent edgesContent st g Hg Hs)
      as (g' & Hg' & Hn & _).
    exists g'. split; [exact Hg' |]. apply Forall_forall. intros meta Hm.
    destruct (Hn meta Hm) as (row & Hin & Hok & ->). exists row.
    split; [exact Hin |]. split; [exact Hok |].
    split; [reflexivity |]. split; [reflexivity |]. apply Hc.
Qed.

Lemma csvNodeOk_id (row : NodeRow.t) :
  csvNodeOk row = true ->
  exists i, NodeRow.id row = Some i /\ i <> ""%string.
Proof.
  unfold csvNodeOk. intros H.
  repeat (apply andb_true_iff in H as [H _]).
  unfold JS.truthy in H. destruct (NodeRow.id row) as [i |]; [| discriminate].
  exists i. split; [reflexivity |]. intros ->. discriminate.
Qed.

Lemma filter_insert {A : Type} (ok : A -> bool) (before after : list A) (bad : A) :
  ok bad = false ->
  filter ok (before ++ bad :: after) = filter ok (before ++ after).
Proof.
  intros H. rewrite !filter_app. cbn [filter]. now rewrite H.
Qed.

(** C8, as amended.  A node row is turned away by the guard exactly when
    its id, label or type is missing or empty or its x or y column is
    missing (an empty x or y cell passes); an edge row exactly when its
    source or target is missing or empty.  A row that is turned away takes
    no other row with it: the store after the import is the same as with
    that row left out of the table.  With both sections present, a graph in
    place and every guard-passing node row of a registered type, the
    console gets one report per row turned away, node rows first, the
    banner is left alone, the edges of the store are the guard-passing edge
    rows in row order, and its nodes are the guard-passing node rows in row
    order when their ids differ. *)
Theorem C8_bad_rows_skipped_one_by_one
  (csvContent nodesContent edgesContent : string) (st : State) (g : Graph) :
  graph st = Some g ->
  sections csvContent = Some (nodesContent, edgesContent) ->
  let nodesData := Papa_parse_nodes (JS.trim nodesContent) in
  let edgesData := Papa_parse_edges (JS.trim edgesContent) in
  let st' := processCSV registered Papa_parse_nodes Papa_parse_edges
               csvContent st in
  st' = csvImport registered nodesData edgesData g st
  /\ (forall before bad after edgeRows,
         csvNodeOk bad = false ->
         graph (csvImport registered (before ++ bad :: after) edgeRows g st)
         = graph (csvImport registered (before ++ after) edgeRows g st))
  /\ (forall nodeRows before bad after,
         csvEdgeOk bad = false ->
         graph (csvImport registered nodeRows (before ++ bad :: after) g st)
         = graph (csvImport registered nodeRows (before ++ after) g st))
  /\ (forallb (fun node => registered (NodeRow.type node))
         (filter csvNodeOk nodesData) = true ->
      console st'
      = console st
        ++ map InvalidNodeData (filter (fun r => negb (csvNodeOk r)) nodesData)
        ++ map InvalidEdgeData (filter (fun r => negb (csvEdgeOk r)) edgesData)
      /\ error st' = error st
      /\ exists g',
           graph st' = Some g'
           /\ edges g' = map csvEdgeMeta (filter csvEdgeOk edgesData)
           /\ length (edges g') = length (filter csvEdgeOk edgesData)
           /\ (NoDup (map NodeRow.id (filter csvNodeOk nodesData)) ->
               nodes g' = map csvNodeMeta (filter csvNodeOk nodesData)
               /\ length (nodes g') = length (filter csvNodeOk nodesData)))
  /\ (forall node,
         csvNodeOk node = false <->
         JS.truthy (NodeRow.id node) = false
         \/ JS.truthy (NodeRow.label node) = false
         \/ NodeRow.x node = None \/ NodeRow.y node = None
         \/ JS.truthy (NodeRow.type node) = false)
  /\ (forall edge,
         csvEdgeOk edge = false <->
         JS.truthy (EdgeData.source edge) = false
         \/ JS.truthy (EdgeData.target edge) = false).
Proof.
  intros Hg Hs nodesData edgesData st'. subst st'.
  rewrite (processCSV_import _ _ _ _ _ _ _ _ Hs Hg). fold nodesData edgesData.
  split; [reflexivity |].
  split; [| split; [| split; [| split]]].
  - intros before bad after edgeRows Hbad.
    rewrite (proj1 (csvImport_graph registered (before ++ bad :: after)
                      edgeRows g st)).
    rewrite (proj1 (csvImport_graph registered (before ++ after) edgeRows g st)).
    now rewrite (filter_insert csvNodeOk before after bad Hbad).
  - intros nodeRows before bad after Hbad.
    rewrite (proj1 (csvImport_graph registered nodeRows (before ++ bad :: after)
                      g st)).
    rewrite (proj1 (csvImport_graph registered nodeRows (before ++ after) g st)).
    now rewrite (filter_insert csvEdgeOk before after bad Hbad).
  - intros Hreg.
    destruct (csvImport_graph registered nodesData edgesData g st)
      as (Hgraph & _ & _ & Hdone & _).
    assert (Hcompl : completed
                       (addNodes registered
                          (map csvNodeMeta (filter csvNodeOk nodesData))
                          (clearCells g)) = true).
    { rewrite addNodes_completed, forallb_map. exact Hreg. }
    rewrite Hcompl in Hgraph. destruct (Hdone Hcompl) as [Herr Hcons].
    split; [exact Hcons |]. split; [exact Herr |].
    eexists. split; [exact Hgraph |].
    rewrite addEdges_edges, addNodes_edges, addEdges_nodes.
    change (edges (clearCells g)) with (@nil EdgeMeta.t). cbn [app].
    split; [reflexivity |]. split; [apply length_map |].
    intros Hnd. rewrite addNodes_all.
    + change (nodes (clearCells g)) with (@nil NodeMeta.t). cbn [app].
      split; [reflexivity | apply length_map].
    + rewrite forallb_map. exact Hreg.
    + rewrite map_map. exact Hnd.
    + intros m Hm. apply in_map_iff in Hm as (row & <- & Hin).
      apply filter_In in Hin as [_ Hok].
      destruct (csvNodeOk_id row Hok) as (i & Hi & Hne).
      exists i. split; [exact Hi |]. split; [exact Hne | reflexivity].
  - apply csvNodeOk_false.
  - apply csvEdgeOk_false.
Qed.

(** C9.  The records [processXML] builds from a document are as many as
    the document has [node] elements, and their identifiers are the [id]
    attributes of those elements, read in document order. *)
Theorem C9_markup_nodes_in_document_order (xmlContent : string) :
  let xmlDoc := parseFromString xmlContent in
  length (xmlNodes xmlDoc) = DOM.count_elements "node" xmlDoc
  /\ map NodeData.id (xmlNodes xmlDoc)
     = map (DOM.getAttribute "id") (DOM.getElementsByTagName "node" xmlDoc).
Proof.
  intros xmlDoc. split.
  - unfold xmlNodes. rewrite length_map. apply getElementsByTagName_count.
  - unfold xmlNodes. now rewrite map_map.
Qed.

(** C10.  The edge a markup import asks for carries a label whose text is
    the [name] attribute of its element, or the empty text when it has
    none; the edge a tabular import asks for carries no label, whatever
    its [name] column holds.  With a graph in place, every edge the import
    leaves in the store was built from an [edge] element, or from a
    guard-passing edge row, and is labelled so. *)
Theorem C10_edge_labels
  (xmlContent csvContent nodesContent edgesContent : string)
  (st : State) (g : Graph) :
  graph st = Some g ->
  sections csvContent = Some (nodesContent, edgesContent) ->
  (forall edge,
      option_map Label.text
        (EdgeAttrs.label (EdgeMeta.attrs (xmlEdgeMeta (xmlEdgeData edge))))
      = Some match DOM.getAttribute "name" edge with
             | Some name => name
             | None => ""%string
             end)
  /\ (forall row, EdgeAttrs.label (EdgeMeta.attrs (csvEdgeMeta row)) = None)
  /\ (exists g',
         graph (processXML registered parseFromString xmlContent st) = Some g'
         /\ Forall
              (fun meta =>
                 exists edge,
                   In edge (DOM.getElementsByTagName "edge"
                              (parseFromString xmlContent))
                   /\ meta = xmlEdgeMeta (xmlEdgeData edge)
                   /\ option_map Label.text
                        (EdgeAttrs.label (EdgeMeta.attrs meta))
                      = Some match DOM.getAttribute "name" edge with
                             | Some name => name
                             | None => ""%string
                             end)
              (edges g'))
  /\ (exists g',
         graph (processCSV registered Papa_parse_nodes Papa_parse_edges
                  csvContent st) = Some g'
         /\ Forall
              (fun meta =>
                 exists row,
                   In row (Papa_parse_edges (JS.trim edgesContent))
                   /\ csvEdgeOk row = true
                   /\ meta = csvEdgeMeta row
                   /\ EdgeAttrs.label (EdgeMeta.attrs meta) = None)
              (edges g')).
Proof.
  intros Hg Hs.
  assert (Hx : forall edge,
             option_map Label.text
               (EdgeAttrs.label (EdgeMeta.attrs (xmlEdgeMeta (xmlEdgeData edge))))
             = Some match DOM.getAttribute "name" edge with
                    | Some name => name
                    | None => ""%string
                    end).
  { intros edge.
    cbn [xmlEdgeMeta xmlEdgeData EdgeMeta.attrs EdgeAttrs.label option_map
         Label.text EdgeData.name].
    now rewrite name_or_empty. }
  split; [exact Hx |]. split; [reflexivity |]. split.
  - destruct (processXML_store_from xmlContent st g Hg) as (g' & Hg' & _ & He).
    exists g'. split; [exact Hg' |]. apply Forall_forall. intros meta Hm.
    destruct (He meta Hm) as (edge & Hin & ->). exists edge.
    split; [exact Hin |]. split; [reflexivity | apply Hx].
  - destruct (processCSV_store_from csvContent nodesContent edgesContent st g Hg Hs)
      as (g' & Hg' & _ & He).
    exists g'. split; [exact Hg' |]. apply Forall_forall. intros meta Hm.
    destruct (He meta Hm) as (row & Hin & Hok & ->). exists row.
    split; [exact Hin |]. split; [exact Hok |]. split; reflexivity.
Qed.

End ImportHandlers.

(* ------------------------------------------------------------------ *)
(** ** The node dialog *)

Section Dialog.

Import X6 App.

Variable registered : option string -> bool.

(** C7, as amended.  With a graph in place and a node of it selected whose
    shape is registered, copy appends to the store exactly two cells: a
    node of the selected node's shape and style, and an edge from the
    selected node to that node, dashed ["5, 5"].  The dialog is closed;
    the selection slot keeps the selected node's identifier. *)
Theorem C7_copy_adds_node_and_dashed_edge
  (st : State) (g : Graph) (sel clicked : CellId) (meta : NodeMeta.t) :
  graph st = Some g ->
  selected (selectedNode st) = Some sel ->
  getCellById sel g = Some (Node clicked meta) ->
  registered (NodeMeta.shape meta) = true ->
  let st' := handleCopyNode registered st in
  exists g' copied edgeId copy edge,
    graph st' = Some g'
    /\ cells g' = cells g ++ [Node copied copy; Edge edgeId edge]
    /\ clicked = sel
    /\ NodeMeta.shape copy = NodeMeta.shape meta
    /\ NodeMeta.attrs copy = NodeMeta.attrs meta
    /\ EdgeMeta.source edge = Some sel
    /\ EdgeMeta.target edge = Some copied
    /\ Line.strokeDasharray (EdgeAttrs.line (EdgeMeta.attrs edge))
       = Some "5, 5"%string
    /\ showModal st' = false
    /\ selectedNode st' = selectedNode st.
Proof.
  intros Hg Hsel Hcell Hreg st'. subst st'.
  rewrite (handleCopyNode_copy _ _ _ _ _ _ Hg Hsel Hcell Hreg).
  apply getCellById_id in Hcell as [_ Hid]. cbn [cell_id] in Hid. subst clicked.
  eexists _, (Generated (counter g)), (Generated (S (counter g))),
    (copyNodeMeta (toJSON meta)), (copyEdgeMeta sel (Generated (counter g))).
  split; [reflexivity |]. split.
  - cbn [push cells]. now rewrite <- app_assoc.
  - repeat split.
Qed.

End Dialog.

(* ------------------------------------------------------------------ *)
(** ** The handlers at the sample inputs *)

Section Instances.

Import X6 App.

(** C1 fails as stated: importing [Samples.dangling], the edge to [ghost]
    is in the store although no node has that identifier, and no
    diagnostic is recorded. *)
Lemma C1_dangling_edge_in_store :
  exists g edge,
    graph (processXML Samples.shapes (fun _ => Samples.dangling) ""
             Samples.mounted) = Some g
    /\ In edge (edges g)
    /\ EdgeMeta.target edge = Some (Given "ghost")
    /\ ~ In (Given "ghost") (node_ids g)
    /\ console (processXML Samples.shapes (fun _ => Samples.dangling) ""
                  Samples.mounted) = []
    /\ error (processXML Samples.shapes (fun _ => Samples.dangling) ""
                Samples.mounted) = None.
Proof.
  eexists. eexists. split; [reflexivity |]. split; [left; reflexivity |].
  split; [reflexivity |]. split; [| split; reflexivity].
  cbn. intros [H | []]. discriminate H.
Qed.

(** The amended C1 at [Samples.two_nodes] and [Samples.table]. *)
Lemma C1_witness :
  graph Samples.mounted = Some Samples.empty_graph
  /\ sections Samples.table = Some (Samples.table_nodes, Samples.table_edges)
  /\ forallb (fun node => Samples.shapes (DOM.getAttribute "type" node))
       (DOM.getElementsByTagName "node" Samples.two_nodes) = true
  /\ forallb (fun node => Samples.shapes (NodeRow.type node))
       (filter csvNodeOk (Papa.parse_nodes (JS.trim Samples.table_nodes)))
     = true
  /\ (exists g',
         graph (processCSV Samples.shapes Papa.parse_nodes Papa.parse_edges
                  Samples.table Samples.mounted) = Some g'
         /\ edges g'
            = map csvEdgeMeta
                (filter csvEdgeOk
                   (Papa.parse_edges (JS.trim Samples.table_edges)))).
Proof.
  split; [reflexivity |]. split; [reflexivity |]. split; [reflexivity |].
  split; [reflexivity |].
  destruct (C1_edges_inserted_without_endpoint_check
              Samples.shapes (fun _ => Samples.two_nodes)
              Papa.parse_nodes Papa.parse_edges
              "" Samples.table Samples.table_nodes Samples.table_edges
              Samples.mounted Samples.empty_graph eq_refl eq_refl eq_refl
              eq_refl)
    as (_ & (g' & Hg' & He & _) & _).
  exists g'. split; assumption.
Defined.

(** C2 at [Samples.plain_table], whose node row has no fill, stroke or
    stroke width: the tabular import resolves fill and stroke width and
    leaves the stroke undefined; the markup import of the same node,
    [Samples.plain_doc], resolves all three. *)
Theorem C2_tabular_stroke_left_undefined :
  option_map (fun g => map (fun m => NodeAttrs.body (NodeMeta.attrs m)) (nodes g))
    (graph (processCSV Samples.shapes Papa.parse_nodes Papa.parse_edges
              Samples.plain_table Samples.mounted))
  = Some [ {| Body.fill := JS.VString "#3366cc";
              Body.stroke := JS.VUndefined;
              Body.strokeWidth := JS.VNumber (JS.of_Z 1) |} ]
  /\ option_map (fun g => map (fun m => NodeAttrs.body (NodeMeta.attrs m)) (nodes g))
       (graph (processXML Samples.shapes (fun _ => Samples.plain_doc) ""
                 Samples.mounted))
     = Some [ {| Body.fill := JS.VString "#3366cc";
                 Body.stroke := JS.VString "#000";
                 Body.strokeWidth := JS.VNumber (JS.of_Z 1) |} ].
Proof. split; reflexivity. Qed.

(** C3 fails as stated: the width text ["wide"] of [Samples.not_numbers] is
    present and not a number, and the width built from it is [NaN], not the
    default 100. *)
Lemma C3_non_numeric_width_is_NaN :
  DOM.getAttribute "width" Samples.not_numbers = Some "wide"%string
  /\ NodeData.width (xmlNodeData Samples.not_numbers) = JS.NaN
  /\ NodeData.width (xmlNodeData Samples.not_numbers) <> JS.of_Z 100
  /\ JS.isFinite (NodeData.width (xmlNodeData Samples.not_numbers)) = false.
Proof. repeat split. discriminate. Qed.

(** The amended C3 at a [node] element and a node row with no numeric
    field. *)
Lemma C3_witness :
  NodeData.width (xmlNodeData (DOM.Elem "node" [("id", "a")%string] [])) = JS.of_Z 100
  /\ NodeData.height (xmlNodeData (DOM.Elem "node" [("id", "a")%string] [])) = JS.of_Z 100
  /\ NodeData.strokeWidth (xmlNodeData (DOM.Elem "node" [("id", "a")%string] []))
     = JS.of_Z 1
  /\ NodeMeta.width
       (csvNodeMeta (NodeRow.mk (Some "a"%string) None None None None None None
                       None None None))
     = Some (JS.of_Z 100).
Proof.
  destruct (C3_missing_numeric_field_defaults
              (DOM.Elem "node" [("id", "a")%string] [])
              (NodeRow.mk (Some "a"%string) None None None None None None None
                 None None))
    as (Hw & Hh & Hs & Hcw & _).
  split; [apply Hw; reflexivity |]. split; [apply Hh; reflexivity |].
  split; [apply Hs; reflexivity |]. apply Hcw; reflexivity.
Defined.

(** C4 fails as stated: importing [Samples.not_numbers_doc], whose node has
    the x text ["left"], leaves in the store a node whose x is not
    finite. *)
Lemma C4_node_with_NaN_x :
  exists g meta,
    graph (processXML Samples.shapes (fun _ => Samples.not_numbers_doc) ""
             Samples.mounted)
    = Some g
    /\ In meta (nodes g)
    /\ NodeMeta.x meta = JS.NaN
    /\ JS.isFinite (NodeMeta.x meta) = false.
Proof.
  eexists. eexists. split; [reflexivity |]. split; [left; reflexivity |].
  split; reflexivity.
Qed.

(** The amended C4 at [Samples.two_nodes] and [Samples.table]: the nodes
    [a] and [b] of the document are stored at x 10 and 30. *)
Lemma C4_witness :
  graph Samples.mounted = Some Samples.empty_graph
  /\ sections Samples.table = Some (Samples.table_nodes, Samples.table_edges)
  /\ (exists g',
         graph (processXML Samples.shapes (fun _ => Samples.two_nodes) ""
                  Samples.mounted) = Some g'
         /\ map NodeMeta.x (nodes g') = [JS.of_Z 10; JS.of_Z 30]
         /\ forallb (fun meta => JS.isFinite (NodeMeta.x meta)) (nodes g')
            = true).
Proof.
  split; [reflexivity |]. split; [reflexivity |].
  destruct (C4_imported_nodes
              Samples.shapes (fun _ => Samples.two_nodes)
              Papa.parse_nodes Papa.parse_edges
              "" Samples.table Samples.table_nodes Samples.table_edges
              Samples.mounted Samples.empty_graph eq_refl eq_refl)
    as ((g' & Hg' & _) & _).
  exists g'. split; [exact Hg' |].
  injection Hg' as <-. split; reflexivity.
Defined.

(** C5 at [Samples.no_separator]. *)
Lemma C5_witness :
  ~ JS.includes "---" Samples.no_separator
  /\ processCSV Samples.shapes Papa.parse_nodes Papa.parse_edges
       Samples.no_separator Samples.mounted
     = setError csvInvalidFormat Samples.mounted.
Proof.
  assert (H : ~ JS.includes "---" Samples.no_separator).
  { intros H. apply includes_includesb in H. vm_compute in H. discriminate H. }
  split; [exact H |].
  exact (proj1 (C5_no_separator_no_mutation Samples.shapes
                  Papa.parse_nodes Papa.parse_edges
                  Samples.no_separator Samples.mounted H)).
Defined.

(** C6 at [Samples.two_nodes] and [Samples.table]: the rectangle [a],
    given height 80, is stored with height 50 and the circle [b] with
    80. *)
Lemma C6_witness :
  graph Samples.mounted = Some Samples.empty_graph
  /\ sections Samples.table = Some (Samples.table_nodes, Samples.table_edges)
  /\ map (fun node => (DOM.getAttribute "type" node,
                       DOM.getAttribute "height" node))
       (DOM.getElementsByTagName "node" Samples.two_nodes)
     = [(Some "rectangle"%string, Some "80"%string);
        (Some "circle"%string, Some "80"%string)]
  /\ (exists g',
         graph (processXML Samples.shapes (fun _ => Samples.two_nodes) ""
                  Samples.mounted) = Some g'
         /\ map NodeMeta.height (nodes g')
            = [Some (JS.of_Z 50); Some (JS.of_Z 80)]).
Proof.
  split; [reflexivity |]. split; [reflexivity |]. split; [reflexivity |].
  destruct (C6_rectangle_height_forced
              Samples.shapes (fun _ => Samples.two_nodes)
              Papa.parse_nodes Papa.parse_edges
              "" Samples.table Samples.table_nodes Samples.table_edges
              Samples.mounted Samples.empty_graph eq_refl eq_refl)
    as (_ & _ & (g1 & Hg1 & _) & _).
  exists g1. split; [exact Hg1 |].
  injection Hg1 as <-. reflexivity.
Defined.

(** C7 fails as stated: after the copy of [a] the selection slot still
    holds [a]; the component is not back in a state without selection. *)
Lemma C7_selection_kept_after_copy :
  selectedNode Samples.a_selected = Some (Given "a")
  /\ selectedNode (handleCopyNode Samples.shapes Samples.a_selected)
     = Some (Given "a")
  /\ selectedNode (handleCopyNode Samples.shapes Samples.a_selected) <> None.
Proof. repeat split. discriminate. Qed.

(** The amended C7 at the copy of the rectangle [a] of
    [Samples.two_nodes]. *)
Lemma C7_witness :
  graph Samples.a_selected = Some Samples.a_graph
  /\ selected (selectedNode Samples.a_selected) = Some (Given "a")
  /\ getCellById (Given "a") Samples.a_graph
     = Some (Node (Given "a") Samples.a_meta)
  /\ Samples.shapes (NodeMeta.shape Samples.a_meta) = true
  /\ (exists g' copied edgeId copy edge,
         graph (handleCopyNode Samples.shapes Samples.a_selected) = Some g'
         /\ cells g'
            = cells Samples.a_graph ++ [Node copied copy; Edge edgeId edge]
         /\ NodeMeta.shape copy = Some "rectangle"%string
         /\ EdgeMeta.source edge = Some (Given "a")
         /\ EdgeMeta.target edge = Some copied).
Proof.
  split; [reflexivity |]. split; [reflexivity |]. split; [reflexivity |].
  split; [reflexivity |].
  destruct (C7_copy_adds_node_and_dashed_edge Samples.shapes
              Samples.a_selected Samples.a_graph (Given "a") (Given "a")
              Samples.a_meta eq_refl eq_refl eq_refl eq_refl)
    as (g' & copied & edgeId & copy & edge & Hg' & Hc & _ & Hshape & _
        & Hs & Ht & _).
  exists g', copied, edgeId, copy, edge. repeat split; assumption.
Defined.

(** C8 fails as stated: the node row of [Samples.empty_x_table] has an
    empty x cell, so no position, yet it is not skipped: the node is in
    the store, with x [NaN], and nothing is reported. *)
Lemma C8_row_with_empty_x_not_skipped :
  sections Samples.empty_x_table
  = Some (Samples.empty_x_nodes, Samples.empty_x_edges)
  /\ map NodeRow.x (Papa.parse_nodes (JS.trim Samples.empty_x_nodes))
     = [Some ""%string]
  /\ option_map (fun g => map (fun m => (NodeMeta.id m, NodeMeta.x m)) (nodes g))
       (graph (processCSV Samples.shapes Papa.parse_nodes Papa.parse_edges
                 Samples.empty_x_table Samples.mounted))
     = Some [(Some "a"%string, JS.NaN)]
  /\ console (processCSV Samples.shapes Papa.parse_nodes Papa.parse_edges
                Samples.empty_x_table Samples.mounted) = [].
Proof. repeat split. Qed.

(** The amended C8 at [Samples.table]: of four node rows and two edge
    rows, two nodes and one edge reach the store and three rows are
    reported. *)
Lemma C8_witness :
  graph Samples.mounted = Some Samples.empty_graph
  /\ sections Samples.table = Some (Samples.table_nodes, Samples.table_edges)
  /\ forallb (fun node => Samples.shapes (NodeRow.type node))
       (filter csvNodeOk (Papa.parse_nodes (JS.trim Samples.table_nodes)))
     = true
  /\ NoDup (map NodeRow.id
              (filter csvNodeOk (Papa.parse_nodes (JS.trim Samples.table_nodes))))
  /\ (exists g',
         graph (processCSV Samples.shapes Papa.parse_nodes Papa.parse_edges
                  Samples.table Samples.mounted) = Some g'
         /\ length (nodes g') = 2%nat
         /\ length (edges g') = 1%nat)
  /\ length (console (processCSV Samples.shapes Papa.parse_nodes
                        Papa.parse_edges Samples.table Samples.mounted))
     = 3%nat.
Proof.
  assert (Hnd : NoDup (map NodeRow.id
                         (filter csvNodeOk
                            (Papa.parse_nodes (JS.trim Samples.table_nodes))))).
  { vm_compute.
    constructor; [intros [H | []]; discriminate H |].
    constructor; [intros [] | constructor]. }
  split; [reflexivity |]. split; [reflexivity |]. split; [reflexivity |].
  split; [exact Hnd |].
  destruct (C8_bad_rows_skipped_one_by_one
              Samples.shapes Papa.parse_nodes Papa.parse_edges
              Samples.table Samples.table_nodes Samples.table_edges
              Samples.mounted Samples.empty_graph eq_refl eq_refl)
    as (_ & _ & _ & Hrun & _).
  destruct (Hrun eq_refl) as (Hc & _ & g' & Hg' & _ & He & Hn).
  destruct (Hn Hnd) as [_ Hlen].
  split.
  - exists g'. split; [exact Hg' |]. split; [rewrite Hlen | rewrite He]; reflexivity.
  - rewrite Hc. reflexivity.
Defined.

(** C10 at [Samples.two_nodes], whose edge is named [joins], and at
    [Samples.table], whose one good edge row has the same name. *)
Lemma C10_witness :
  graph Samples.mounted = Some Samples.empty_graph
  /\ sections Samples.table = Some (Samples.table_nodes, Samples.table_edges)
  /\ map EdgeData.name
       (filter csvEdgeOk (Papa.parse_edges (JS.trim Samples.table_edges)))
     = [Some "joins"%string]
  /\ (exists g',
         graph (processXML Samples.shapes (fun _ => Samples.two_nodes) ""
                  Samples.mounted) = Some g'
         /\ map (fun meta => option_map Label.text
                               (EdgeAttrs.label (EdgeMeta.attrs meta)))
              (edges g') = [Some "joins"%string])
  /\ (exists g',
         graph (processCSV Samples.shapes Papa.parse_nodes Papa.parse_edges
                  Samples.table Samples.mounted) = Some g'
         /\ map (fun meta => EdgeAttrs.label (EdgeMeta.attrs meta)) (edges g')
            = [None]).
Proof.
  split; [reflexivity |]. split; [reflexivity |]. split; [reflexivity |].
  destruct (C10_edge_labels
              Samples.shapes (fun _ => Samples.two_nodes)
              Papa.parse_nodes Papa.parse_edges
              "" Samples.table Samples.table_nodes Samples.table_edges
              Samples.mounted Samples.empty_graph eq_refl eq_refl)
    as (_ & _ & (g1 & Hg1 & _) & (g2 & Hg2 & _)).
  split.
  - exists g1. split; [exact Hg1 |]. injection Hg1 as <-. reflexivity.
  - exists g2. split; [exact Hg2 |]. injection Hg2 as <-. reflexivity.
Defined.

End Instances.
(* ------------------------------------------------------------------ *)
(** ** The two sections of tabular text *)

Section Sections.

Import X6 App.

Lemma includes_cons (sep s : string) (c : ascii) :
  JS.includes sep s -> JS.includes sep (String c s).
Proof.
  intros (before & after & ->). exists (String c before), after. reflexivity.
Qed.

(** Three dashes at the head of [a ++ "---" ++ b], with [a] not empty, are
    three dashes at the head of [a ++ "--"]. *)
Lemma dashes_at_head (c : ascii) (a b : string) :
  JS.starts_with "---" (String c a ++ "---" ++ b)%string = true ->
  JS.includes "---" (String c a ++ "--")%string.
Proof.
  intros H. apply starts_with_split in H as [rest H].
  exists ""%string.
  destruct a as [| d [| e a]]; cbn [append] in H |- *;
    inversion H; subst; clear H.
  - exists ""%string. reflexivity.
  - exists "-"%string. reflexivity.
  - exists (a ++ "--")%string. reflexivity.
Qed.

(** [split] cuts at the first occurrence of the separator. *)
Lemma split_at_first (a b : string) :
  ~ JS.includes "---" (a ++ "--")%string ->
  forall cur,
    JS.split_from "---" (a ++ "---" ++ b)%string 0 cur
    = (cur ++ a)%string :: JS.split_from "---" b 0 "".
Proof.
  induction a as [| c a IH]; intros H cur.
  - pose proof (starts_with_append "---" b) as E. cbn [append] in E |- *.
    cbn [JS.split_from]. rewrite E.
    cbn [String.length Nat.sub JS.split_from]. now rewrite append_empty_r.
  - change (String c a ++ "---" ++ b)%string
      with (String c (a ++ "---" ++ b)%string).
    cbn [JS.split_from].
    destruct (JS.starts_with "---" (String c (a ++ "---" ++ b))) eqn:E.
    + exfalso. apply H. now apply (dashes_at_head c a b).
    + rewrite IH.
      * rewrite append_assoc. reflexivity.
      * intros Hin. apply H. now apply includes_cons.
Qed.

Lemma split_joined (a b : string) :
  ~ JS.includes "---" (a ++ "--")%string ->
  JS.split "---" (a ++ "---" ++ b)%string = a :: JS.split "---" b.
Proof. intros H. unfold JS.split. now rewrite split_at_first. Qed.

Variable registered : option string -> bool.
Variable Papa_parse_nodes : string -> list NodeRow.t.
Variable Papa_parse_edges : string -> list EdgeData.t.

(** X1.  Tabular text that begins with the separator, or in which nothing
    follows the only separator, has an empty section: it is turned away as
    a whole with the format banner, and the graph and the console are left
    as they were. *)
Theorem csv_empty_section_rejected (nodesContent rest : string) (st : State) :
  ~ JS.includes "---" (nodesContent ++ "--")%string ->
  processCSV registered Papa_parse_nodes Papa_parse_edges ("---" ++ rest) st
  = setError csvInvalidFormat st
  /\ processCSV registered Papa_parse_nodes Papa_parse_edges (nodesContent ++ "---") st
     = setError csvInvalidFormat st.
Proof.
  intros H. split; apply processCSV_fatal; unfold sections.
  - change (JS.split "---" ("---" ++ rest))
      with (JS.split "---" ("" ++ "---" ++ rest)).
    rewrite (split_joined "" rest).
    + destruct (JS.split "---" rest) as [| e r]; reflexivity.
    + intros Hin. apply includes_includesb in Hin. discriminate Hin.
  - replace (nodesContent ++ "---")%string
      with (nodesContent ++ "---" ++ "")%string by reflexivity.
    rewrite (split_joined nodesContent "" H). cbn.
    now rewrite andb_false_r.
Qed.

Lemma includes_append (sep s tail : string) :
  JS.includes sep s -> JS.includes sep (s ++ tail)%string.
Proof.
  intros (before & after & ->). exists before, (after ++ tail)%string.
  now rewrite !append_assoc.
Qed.

(** X2.  Two non-empty sections joined by the separator are read back as they
    are, and whatever follows a second separator is ignored: the import is
    that of the first two sections alone. *)
Theorem csv_text_after_second_separator_ignored
  (nodesContent edgesContent extra : string) (st : State) :
  nodesContent <> ""%string ->
  edgesContent <> ""%string ->
  ~ JS.includes "---" (nodesContent ++ "--")%string ->
  ~ JS.includes "---" (edgesContent ++ "--")%string ->
  sections (nodesContent ++ "---" ++ edgesContent)
  = Some (nodesContent, edgesContent)
  /\ sections (nodesContent ++ "---" ++ edgesContent ++ "---" ++ extra)
     = Some (nodesContent, edgesContent)
  /\ processCSV registered Papa_parse_nodes Papa_parse_edges
       (nodesContent ++ "---" ++ edgesContent ++ "---" ++ extra) st
     = processCSV registered Papa_parse_nodes Papa_parse_edges
         (nodesContent ++ "---" ++ edgesContent) st.
Proof.
  intros Hn He Hin Hie.
  assert (Ht : JS.truthy (Some nodesContent) && JS.truthy (Some edgesContent)
               = true).
  { unfold JS.truthy.
    destruct (String.eqb_spec nodesContent ""); [contradiction |].
    destruct (String.eqb_spec edgesContent ""); [contradiction |].
    reflexivity. }
  assert (H2 : sections (nodesContent ++ "---" ++ edgesContent)
               = Some (nodesContent, edgesContent)).
  { unfold sections. rewrite (split_joined nodesContent _ Hin), split_whole.
    - now rewrite Ht.
    - intros Hi. apply Hie. now apply includes_append. }
  assert (H3 : sections (nodesContent ++ "---" ++ edgesContent ++ "---" ++ extra)
               = Some (nodesContent, edgesContent)).
  { unfold sections.
    rewrite (split_joined nodesContent _ Hin), (split_joined edgesContent _ Hie).
    now rewrite Ht. }
  split; [exact H2 |]. split; [exact H3 |].
  now rewrite !processCSV_by_sections, H2, H3.
Qed.

End Sections.

(* ------------------------------------------------------------------ *)
(** ** Looking cells up *)

Section Lookup.

Import X6 App.

Lemma CellId_eqb_refl (i : CellId) : CellId_eqb i i = true.
Proof.
  destruct i; cbn [CellId_eqb]; [apply String.eqb_refl | apply Nat.eqb_refl].
Qed.

Lemma CellId_eqb_neq (a b : CellId) : a <> b -> CellId_eqb a b = false.
Proof.
  intros H. destruct (CellId_eqb a b) eqn:E; [| reflexivity].
  now apply CellId_eqb_eq in E.
Qed.

Lemma find_append {A : Type} (f : A -> bool) (l l' : list A) :
  find f (l ++ l')
  = match find f l with
    | Some x => Some x
    | None => find f l'
    end.
Proof.
  induction l as [| a l IH]; cbn [app find]; [reflexivity |].
  now destruct (f a).
Qed.

Lemma find_all_false {A : Type} (f : A -> bool) (l : list A) :
  (forall x, In x l -> f x = false) -> find f l = None.
Proof.
  induction l as [| a l IH]; intros H; cbn [find]; [reflexivity |].
  rewrite (H a (or_introl eq_refl)). apply IH. intros x Hx. apply H. now right.
Qed.

Lemma find_none_existsb {A : Type} (f : A -> bool) (l : list A) :
  find f l = None -> existsb f l = false.
Proof.
  induction l as [| a l IH]; cbn [find existsb]; [reflexivity |].
  destruct (f a); [discriminate | exact IH].
Qed.

Lemma getCellById_push (i : CellId) (c : Cell) (g : Graph) :
  getCellById i (push c g)
  = match getCellById i g with
    | Some x => Some x
    | None => if CellId_eqb (cell_id c) i then Some c else None
    end.
Proof. unfold getCellById, push; cbn [cells]. now rewrite find_append. Qed.

Lemma getCellById_held (i : CellId) (g : Graph) :
  getCellById i g = None -> held i g = false.
Proof. apply find_none_existsb. Qed.

Section Registered.

Variable registered : option string -> bool.

(** A cell that is found stays the one found while cells are added. *)
Lemma getCellById_addNodes_found (i : CellId) (c : Cell) (ms : list NodeMeta.t)
  (g : Graph) :
  getCellById i g = Some c ->
  getCellById i (reached (addNodes registered ms g)) = Some c.
Proof.
  intros H. destruct (addNodes_cells registered ms g) as (cs & Hc & _).
  unfold getCellById in *. now rewrite Hc, find_append, H.
Qed.

Lemma getCellById_addEdges_found (i : CellId) (c : Cell) (ms : list EdgeMeta.t)
  (g : Graph) :
  getCellById i g = Some c -> getCellById i (addEdges ms g) = Some c.
Proof.
  intros H. destruct (cells_addEdges ms g) as (cs & Hc & _).
  unfold getCellById in *. now rewrite Hc, find_append, H.
Qed.

Lemma assign_given (i : string) (g : Graph) :
  i <> ""%string -> assign (Some i) g = Given i.
Proof.
  intros H. unfold assign. now destruct (String.eqb_spec i "").
Qed.

Lemma assign_other (o : option string) (i : string) (g : Graph) :
  o <> Some i -> assign o g <> Given i.
Proof.
  intros H. unfold assign. destruct o as [s |]; [| discriminate].
  destruct (s =? "")%string; [discriminate |]. intros [= ->]. now apply H.
Qed.

(** The first node added under an identifier is the one found under it,
    when no [addNode] up to it throws. *)
Lemma getCellById_addNodes (before : list NodeMeta.t) (m : NodeMeta.t)
  (after : list NodeMeta.t) (i : string) :
  NodeMeta.id m = Some i ->
  i <> ""%string ->
  registered (NodeMeta.shape m) = true ->
  (forall m', In m' before ->
              NodeMeta.id m' <> Some i /\ registered (NodeMeta.shape m') = true) ->
  forall g,
    getCellById (Given i) g = None ->
    getCellById (Given i) (reached (addNodes registered (before ++ m :: after) g))
    = Some (Node (Given i) m).
Proof.
  intros Hid Hi Hreg. induction before as [| m' before IH]; intros Hb g Hg.
  - cbn [app addNodes]. unfold addNode.
    rewrite Hreg, Hid, (assign_given i g Hi). cbn [cell_id].
    rewrite (getCellById_held _ _ Hg).
    apply getCellById_addNodes_found.
    rewrite getCellById_push, Hg. cbn [cell_id]. now rewrite CellId_eqb_refl.
  - cbn [app addNodes].
    destruct (Hb m' (or_introl eq_refl)) as [Hne Hreg'].
    destruct (addNode registered m' g) as [[c g'] |] eqn:E.
    + apply addNode_returns in E as (_ & -> & Hg').
      apply IH; [intros x Hx; apply Hb; now right |].
      destruct Hg' as [-> | ->]; [exact Hg |].
      rewrite getCellById_push, Hg. cbn [cell_id].
      rewrite CellId_eqb_neq; [reflexivity |]. now apply assign_other.
    + apply addNode_throws in E. congruence.
Qed.

(** The cells an import leaves: node cells, then edge cells, no more of
    either than it was given, and as many edges as it was given when the
    node loop runs to its end. *)
Lemma import_cells (ns : list NodeMeta.t) (es : list EdgeMeta.t) (g : Graph) :
  let loop := addNodes registered ns (clearCells g) in
  exists ncells ecells,
    cells (if completed loop then addEdges es (reached loop) else reached loop)
    = ncells ++ ecells
    /\ Forall (fun c => isNode c = true) ncells
    /\ Forall (fun c => isNode c = false) ecells
    /\ (length ncells <= length ns)%nat
    /\ (length ecells <= length es)%nat
    /\ (completed loop = true -> length ecells = length es).
Proof.
  intros loop. subst loop.
  destruct (addNodes_cells registered ns (clearCells g)) as (nc & Hn & Hfn & Hln).
  cbn [clearCells cells app] in Hn.
  assert (Hnodes : Forall (fun c => isNode c = true) nc).
  { apply (Forall_impl _ (P := fun c => exists i m, c = Node i m /\ In m ns));
      [| exact Hfn].
    now intros c (i & m & -> & _). }
  destruct (completed _).
  - destruct (cells_addEdges es (reached (addNodes registered ns (clearCells g))))
      as (ec & He & Hfe & Hle).
    exists nc, ec. rewrite He, Hn.
    repeat split; auto; lia.
  - exists nc, []. rewrite Hn, app_nil_r.
    repeat split; auto; try (cbn; lia); discriminate.
Qed.

End Registered.

End Lookup.

(* ------------------------------------------------------------------ *)
(** ** More on the import handlers *)

Section ImportedStore.

Import X6 App.

Variable registered : option string -> bool.
Variable parseFromString : string -> DOM.Document.
Variable Papa_parse_nodes : string -> list NodeRow.t.
Variable Papa_parse_edges : string -> list EdgeData.t.

(** X3.  After an import with a graph in place the store holds cells of
    the import and nothing else, every node before every edge: at most
    one node cell per [node] element (or node row that passes the guard),
    then at most one edge cell per [edge] element (or edge row that passes
    the guard), and exactly one per edge when every node of the import is
    of a registered shape.  No cell of the graph shown before is left. *)
Theorem import_store_is_nodes_then_edges
  (xmlContent csvContent nodesContent edgesContent : string)
  (st : State) (g : Graph) :
  graph st = Some g ->
  sections csvContent = Some (nodesContent, edgesContent) ->
  (exists g' ncells ecells,
      graph (processXML registered parseFromString xmlContent st) = Some g'
      /\ cells g' = ncells ++ ecells
      /\ Forall (fun c => isNode c = true) ncells
      /\ Forall (fun c => isNode c = false) ecells
      /\ (length ncells
          <= length (DOM.getElementsByTagName "node"
                       (parseFromString xmlContent)))%nat
      /\ (length ecells
          <= length (DOM.getElementsByTagName "edge"
                       (parseFromString xmlContent)))%nat
      /\ (forallb (fun node => registered (DOM.getAttribute "type" node))
            (DOM.getElementsByTagName "node" (parseFromString xmlContent))
          = true ->
          length ecells
          = length (DOM.getElementsByTagName "edge"
                      (parseFromString xmlContent)))
      /\ (forall meta, In meta (nodes g') ->
            exists node,
              In node (DOM.getElementsByTagName "node"
                         (parseFromString xmlContent))
              /\ meta = xmlNodeMeta (xmlNodeData node))
      /\ (forall meta, In meta (edges g') ->
            exists edge,
              In edge (DOM.getElementsByTagName "edge"
                         (parseFromString xmlContent))
              /\ meta = xmlEdgeMeta (xmlEdgeData edge)))
  /\ (exists g' ncells ecells,
         graph (processCSV registered Papa_parse_nodes Papa_parse_edges
                  csvContent st) = Some g'
         /\ cells g' = ncells ++ ecells
         /\ Forall (fun c => isNode c = true) ncells
         /\ Forall (fun c => isNode c = false) ecells
         /\ (length ncells
             <= length (filter csvNodeOk
                          (Papa_parse_nodes (JS.trim nodesContent))))%nat
         /\ (length ecells
             <= length (filter csvEdgeOk
                          (Papa_parse_edges (JS.trim edgesContent))))%nat
         /\ (forallb (fun node => registered (NodeRow.type node))
               (filter csvNodeOk (Papa_parse_nodes (JS.trim nodesContent)))
             = true ->
             length ecells
             = length (filter csvEdgeOk
                         (Papa_parse_edges (JS.trim edgesContent))))
         /\ (forall meta, In meta (nodes g') ->
               exists node,
                 In node (Papa_parse_nodes (JS.trim nodesContent))
                 /\ csvNodeOk node = true /\ meta = csvNodeMeta node)
         /\ (forall meta, In meta (edges g') ->
               exists edge,
                 In edge (Papa_parse_edges (JS.trim edgesContent))
                 /\ csvEdgeOk edge = true /\ meta = csvEdgeMeta edge)).
Proof.
  intros Hg Hs. split.
  - destruct (processXML_store_from registered parseFromString xmlContent st g Hg)
      as (g' & Hg' & Hfrom).
    destruct (processXML_graph registered parseFromString xmlContent st g Hg)
      as (Hgraph & _).
    destruct (import_cells registered
                (map xmlNodeMeta (xmlNodes (parseFromString xmlContent)))
                (map xmlEdgeMeta (xmlEdges (parseFromString xmlContent))) g)
      as (nc & ec & Hc & Hn & He & Hln & Hle & Hdone).
    rewrite addNodes_completed in Hdone.
    unfold xmlNodes, xmlEdges in Hln, Hle, Hdone.
    rewrite !forallb_map in Hdone.
    cbn [xmlNodeMeta xmlNodeData NodeMeta.shape NodeData.type] in Hdone.
    rewrite !length_map in Hln, Hle, Hdone.
    exists g', nc, ec. split; [exact Hg' |].
    rewrite Hg' in Hgraph. injection Hgraph as ->.
    split; [exact Hc |]. repeat (split; [assumption |]). exact Hfrom.
  - destruct (processCSV_store_from registered Papa_parse_nodes Papa_parse_edges
                csvContent nodesContent edgesContent st g Hg Hs)
      as (g' & Hg' & Hfrom).
    rewrite (processCSV_import _ _ _ _ _ _ _ _ Hs Hg) in Hg'.
    destruct (csvImport_graph registered (Papa_parse_nodes (JS.trim nodesContent))
                (Papa_parse_edges (JS.trim edgesContent)) g st) as (Hgraph & _).
    destruct (import_cells registered
                (map csvNodeMeta
                   (filter csvNodeOk (Papa_parse_nodes (JS.trim nodesContent))))
                (map csvEdgeMeta
                   (filter csvEdgeOk (Papa_parse_edges (JS.trim edgesContent))))
                g)
      as (nc & ec & Hc & Hn & He & Hln & Hle & Hdone).
    rewrite addNodes_completed, forallb_map in Hdone.
    cbn [csvNodeMeta NodeMeta.shape] in Hdone.
    rewrite !length_map in Hln, Hle, Hdone.
    exists g', nc, ec.
    rewrite (processCSV_import _ _ _ _ _ _ _ _ Hs Hg).
    split; [exact Hg' |].
    rewrite Hg' in Hgraph. injection Hgraph as ->.
    split; [exact Hc |]. repeat (split; [assumption |]). exact Hfrom.
Qed.

Lemma strokeDasharray_solid (type : option string) :
  strokeDasharray (Some (JS.or_else type "solid")) = strokeDasharray type.
Proof.
  destruct type as [t |]; [| reflexivity]. cbn [JS.or_else].
  destruct (String.eqb_spec t ""); [now subst | reflexivity].
Qed.

Lemma strokeDasharray_cases (type : option string) :
  (type = Some "dashed"%string -> strokeDasharray type = Some "5, 5"%string)
  /\ (type = Some "dotted"%string -> strokeDasharray type = Some "2, 2"%string)
  /\ (type <> Some "dashed"%string -> type <> Some "dotted"%string
      -> strokeDasharray type = None).
Proof.
  split; [now intros -> | split; [now intros -> |]].
  intros Hd Ho. destruct type as [t |]; [| reflexivity]. cbn [strokeDasharray].
  destruct (String.eqb_spec t "dashed"); [now subst |].
  destruct (String.eqb_spec t "dotted"); [now subst | reflexivity].
Qed.

(** X4.  How an imported edge is drawn.  With a graph in place, each edge
    of the store after an import was built from an [edge] element, or an
    edge row that passes the guard, and has a line of width 2, black
    ("#000") from markup and purple from tabular text, dashed "5, 5" when
    the type of its element or row is [dashed], "2, 2" when it is
    [dotted], and solid for any other type or none; its source marker is
    the purple circle and its target marker the purple diamond. *)
Theorem import_edge_line_style
  (xmlContent csvContent nodesContent edgesContent : string)
  (st : State) (g : Graph) :
  graph st = Some g ->
  sections csvContent = Some (nodesContent, edgesContent) ->
  (exists g',
      graph (processXML registered parseFromString xmlContent st) = Some g'
      /\ Forall
           (fun meta =>
              exists edge,
                In edge (DOM.getElementsByTagName "edge"
                           (parseFromString xmlContent))
                /\ meta = xmlEdgeMeta (xmlEdgeData edge)
                /\ let line := EdgeAttrs.line (EdgeMeta.attrs meta) in
                   let type := DOM.getAttribute "type" edge in
                   Line.stroke line = "#000"%string
                   /\ Line.strokeWidth line = JS.of_Z 2
                   /\ (type = Some "dashed"%string
                       -> Line.strokeDasharray line = Some "5, 5"%string)
                   /\ (type = Some "dotted"%string
                       -> Line.strokeDasharray line = Some "2, 2"%string)
                   /\ (type <> Some "dashed"%string
                       -> type <> Some "dotted"%string
                       -> Line.strokeDasharray line = None)
                   /\ EdgeAttrs.sourceMarker (EdgeMeta.attrs meta) = sourceMarker
                   /\ EdgeAttrs.targetMarker (EdgeMeta.attrs meta) = targetMarker)
           (edges g'))
  /\ (exists g',
         graph (processCSV registered Papa_parse_nodes Papa_parse_edges
                  csvContent st) = Some g'
         /\ Forall
              (fun meta =>
                 exists edge,
                   In edge (Papa_parse_edges (JS.trim edgesContent))
                   /\ csvEdgeOk edge = true
                   /\ meta = csvEdgeMeta edge
                   /\ let line := EdgeAttrs.line (EdgeMeta.attrs meta) in
                      let type := EdgeData.type edge in
                      Line.stroke line = "purple"%string
                      /\ Line.strokeWidth line = JS.of_Z 2
                      /\ (type = Some "dashed"%string
                          -> Line.strokeDasharray line = Some "5, 5"%string)
                      /\ (type = Some "dotted"%string
                          -> Line.strokeDasharray line = Some "2, 2"%string)
                      /\ (type <> Some "dashed"%string
                          -> type <> Some "dotted"%string
                          -> Line.strokeDasharray line = None)
                      /\ EdgeAttrs.sourceMarker (EdgeMeta.attrs meta)
                         = sourceMarker
                      /\ EdgeAttrs.targetMarker (EdgeMeta.attrs meta)
                         = targetMarker)
              (edges g')).
Proof.
  intros Hg Hs. split.
  - destruct (processXML_store_from registered parseFromString xmlContent st g Hg)
      as (g' & Hg' & _ & He).
    exists g'. split; [exact Hg' |]. apply Forall_forall. intros meta Hm.
    destruct (He meta Hm) as (edge & Hin & ->). exists edge.
    split; [exact Hin |]. split; [reflexivity |].
    cbn [xmlEdgeMeta xmlEdgeData EdgeMeta.attrs EdgeAttrs.line Line.stroke
         Line.strokeWidth Line.strokeDasharray EdgeAttrs.sourceMarker
         EdgeAttrs.targetMarker EdgeData.type].
    rewrite strokeDasharray_solid.
    destruct (strokeDasharray_cases (DOM.getAttribute "type" edge))
      as (H1 & H2 & H3). auto 10.
  - destruct (processCSV_store_from registered Papa_parse_nodes Papa_parse_edges
                csvContent nodesContent edgesContent st g Hg Hs)
      as (g' & Hg' & _ & He).
    exists g'. split; [exact Hg' |]. apply Forall_forall. intros meta Hm.
    destruct (He meta Hm) as (edge & Hin & Hok & ->). exists edge.
    split; [exact Hin |]. split; [exact Hok |]. split; [reflexivity |].
    cbn [csvEdgeMeta EdgeMeta.attrs EdgeAttrs.line Line.stroke
         Line.strokeWidth Line.strokeDasharray EdgeAttrs.sourceMarker
         EdgeAttrs.targetMarker].
    destruct (strokeDasharray_cases (EdgeData.type edge)) as (H1 & H2 & H3).
    auto 10.
Qed.

Lemma handleNodeClick_node (i : CellId) (meta : NodeMeta.t) (st : State)
  (g : Graph) :
  graph st = Some g ->
  getCellById i g = Some (Node i meta) ->
  handleNodeClick (Some i) st
  = setShowModal true (setSelectedNode (Some i) st).
Proof. intros Hg H. unfold handleNodeClick. now rewrite Hg, H. Qed.

(** X5.  A node of a markup import can be picked by its identifier: when a
    [node] element has a non-empty [id] that no earlier [node] element
    has, and it and the [node] elements before it are of registered
    types, the store finds under that identifier the node built from the
    element, and a click on it selects it and opens the dialog. *)
Theorem markup_node_found_and_clickable
  (xmlContent : string) (st : State) (g : Graph)
  (before after : list DOM.Element) (node : DOM.Element) (i : string) :
  graph st = Some g ->
  DOM.getElementsByTagName "node" (parseFromString xmlContent)
  = before ++ node :: after ->
  DOM.getAttribute "id" node = Some i ->
  i <> ""%string ->
  (forall e, In e before -> DOM.getAttribute "id" e <> Some i) ->
  forallb (fun e => registered (DOM.getAttribute "type" e)) (before ++ [node])
  = true ->
  let st' := processXML registered parseFromString xmlContent st in
  exists g',
    graph st' = Some g'
    /\ getCellById (Given i) g'
       = Some (Node (Given i) (xmlNodeMeta (xmlNodeData node)))
    /\ handleNodeClick (Some (Given i)) st'
       = setShowModal true (setSelectedNode (Some (Given i)) st').
Proof.
  intros Hg Hel Hid Hi Hb Hreg st'. subst st'.
  rewrite forallb_app in Hreg. apply andb_true_iff in Hreg as [Hrb Hrn].
  cbn [forallb] in Hrn. rewrite andb_true_r in Hrn.
  rewrite forallb_forall in Hrb.
  destruct (processXML_graph registered parseFromString xmlContent st g Hg)
    as (Hgraph & _).
  assert (Hloop :
    getCellById (Given i)
      (reached (addNodes registered
                  (map xmlNodeMeta (xmlNodes (parseFromString xmlContent)))
                  (clearCells g)))
    = Some (Node (Given i) (xmlNodeMeta (xmlNodeData node)))).
  { unfold xmlNodes. rewrite Hel, !map_app. cbn [map].
    apply getCellById_addNodes;
      [exact Hid | exact Hi | exact Hrn | | reflexivity].
    intros m' Hm'. apply in_map_iff in Hm' as (d & <- & Hd).
    apply in_map_iff in Hd as (e & <- & He).
    split; [now apply Hb | now apply Hrb]. }
  eexists. split; [exact Hgraph |].
  assert (Hfind : forall es,
    getCellById (Given i)
      (if completed (addNodes registered
                       (map xmlNodeMeta (xmlNodes (parseFromString xmlContent)))
                       (clearCells g))
       then addEdges es
              (reached (addNodes registered
                          (map xmlNodeMeta
                             (xmlNodes (parseFromString xmlContent)))
                          (clearCells g)))
       else reached (addNodes registered
                       (map xmlNodeMeta (xmlNodes (parseFromString xmlContent)))
                       (clearCells g)))
    = Some (Node (Given i) (xmlNodeMeta (xmlNodeData node)))).
  { intros es. destruct (completed _); [| exact Hloop].
    now apply getCellById_addEdges_found. }
  split; [apply Hfind |].
  exact (handleNodeClick_node _ _ _ _ Hgraph (Hfind _)).
Qed.

(** X6.  The same for a tabular import: a node row that passes the guard,
    whose identifier no earlier such row has, and which like the
    guard-passing rows before it is of a registered type, is found under
    its identifier and can be clicked. *)
Theorem tabular_node_found_and_clickable
  (csvContent nodesContent edgesContent : string) (st : State) (g : Graph)
  (before after : list NodeRow.t) (node : NodeRow.t) (i : string) :
  graph st = Some g ->
  sections csvContent = Some (nodesContent, edgesContent) ->
  filter csvNodeOk (Papa_parse_nodes (JS.trim nodesContent))
  = before ++ node :: after ->
  NodeRow.id node = Some i ->
  (forall r, In r before -> NodeRow.id r <> Some i) ->
  forallb (fun r => registered (NodeRow.type r)) (before ++ [node]) = true ->
  let st' := processCSV registered Papa_parse_nodes Papa_parse_edges
               csvContent st in
  exists g',
    graph st' = Some g'
    /\ getCellById (Given i) g' = Some (Node (Given i) (csvNodeMeta node))
    /\ handleNodeClick (Some (Given i)) st'
       = setShowModal true (setSelectedNode (Some (Given i)) st').
Proof.
  intros Hg Hs Hrows Hid Hb Hreg st'. subst st'.
  rewrite forallb_app in Hreg. apply andb_true_iff in Hreg as [Hrb Hrn].
  cbn [forallb] in Hrn. rewrite andb_true_r in Hrn.
  rewrite forallb_forall in Hrb.
  assert (Hi : i <> ""%string).
  { assert (Hin : In node (filter csvNodeOk
                             (Papa_parse_nodes (JS.trim nodesContent)))).
    { rewrite Hrows. apply in_or_app. right. now left. }
    apply filter_In in Hin as [_ Hok].
    destruct (csvNodeOk_id node Hok) as (j & Hj & Hne). congruence. }
  rewrite (processCSV_import _ _ _ _ _ _ _ _ Hs Hg).
  destruct (csvImport_graph registered (Papa_parse_nodes (JS.trim nodesContent))
              (Papa_parse_edges (JS.trim edgesContent)) g st) as (Hgraph & _).
  assert (Hloop :
    getCellById (Given i)
      (reached (addNodes registered
                  (map csvNodeMeta
                     (filter csvNodeOk
                        (Papa_parse_nodes (JS.trim nodesContent))))
                  (clearCells g)))
    = Some (Node (Given i) (csvNodeMeta node))).
  { rewrite Hrows, !map_app. cbn [map].
    apply getCellById_addNodes;
      [exact Hid | exact Hi | exact Hrn | | reflexivity].
    intros m' Hm'. apply in_map_iff in Hm' as (r & <- & Hr).
    split; [now apply Hb | now apply Hrb]. }
  eexists. split; [exact Hgraph |].
  assert (Hfind : forall es,
    getCellById (Given i)
      (if completed (addNodes registered
                       (map csvNodeMeta
                          (filter csvNodeOk
                             (Papa_parse_nodes (JS.trim nodesContent))))
                       (clearCells g))
       then addEdges es
              (reached (addNodes registered
                          (map csvNodeMeta
                             (filter csvNodeOk
                                (Papa_parse_nodes (JS.trim nodesContent))))
                          (clearCells g)))
       else reached (addNodes registered
                       (map csvNodeMeta
                          (filter csvNodeOk
                             (Papa_parse_nodes (JS.trim nodesContent))))
                       (clearCells g)))
    = Some (Node (Given i) (csvNodeMeta node))).
  { intros es. destruct (completed _); [| exact Hloop].
    now apply getCellById_addEdges_found. }
  split; [apply Hfind |].
  exact (handleNodeClick_node _ _ _ _ Hgraph (Hfind _)).
Qed.

End ImportedStore.
(* ------------------------------------------------------------------ *)
(** ** More on the node dialog *)

Section DialogActions.

Import X6 App.

Variable registered : option string -> bool.

(** X7.  A click reaches the dialog only through a node of the store: with no
    graph, no cell in the event, an identifier the store does not hold, or
    the identifier of an edge, the state is left as it is; for a node of
    the store, that node becomes the selection and the dialog opens, the
    graph staying as it is. *)
Theorem click_selects_nodes_only (cell : option CellId) (st : State) :
  (graph st = None \/ cell = None
   \/ (exists g i, graph st = Some g /\ cell = Some i
                   /\ (getCellById i g = None
                       \/ exists e meta, getCellById i g = Some (Edge e meta)))
   -> handleNodeClick cell st = st)
  /\ (forall g i meta,
         graph st = Some g -> cell = Some i ->
         getCellById i g = Some (Node i meta) ->
         handleNodeClick cell st
         = {| graph := Some g; showModal := true; selectedNode := Some i;
              error := error st; console := console st |}).
Proof.
  split.
  - intros [H | [H | (g & i & Hg & Hc & [H | (e & meta & H)])]];
      unfold handleNodeClick.
    + now rewrite H.
    + rewrite H. now destruct (graph st).
    + now rewrite Hg, Hc, H.
    + now rewrite Hg, Hc, H.
  - intros g i meta Hg Hc H. unfold handleNodeClick.
    rewrite Hg, Hc, H. cbn [isNode cell_id].
    unfold setShowModal, setSelectedNode.
    cbn [graph showModal selectedNode error console]. now rewrite Hg.
Qed.

(** X8.  Copy and delete without a target.  With no graph, no selection, or a
    selection the store no longer holds, both buttons only close the
    dialog; copy does the same when the selection is an edge. *)
Theorem copy_and_delete_need_a_target (st : State) :
  (graph st = None \/ selected (selectedNode st) = None
   \/ (exists g sel, graph st = Some g /\ selected (selectedNode st) = Some sel
                     /\ getCellById sel g = None)
   -> handleCopyNode registered st = setShowModal false st
      /\ handleDeleteNode st = setShowModal false st)
  /\ (forall g sel e meta,
         graph st = Some g -> selected (selectedNode st) = Some sel ->
         getCellById sel g = Some (Edge e meta) ->
         handleCopyNode registered st = setShowModal false st).
Proof.
  split.
  - intros [H | [H | (g & sel & Hg & Hsel & H)]];
      unfold handleCopyNode, handleDeleteNode.
    + now rewrite H.
    + rewrite H. now destruct (graph st).
    + now rewrite Hg, Hsel, H.
  - intros g sel e meta Hg Hsel H. unfold handleCopyNode.
    now rewrite Hg, Hsel, H.
Qed.

Lemma in_removeCell (c d : Cell) (g : Graph) :
  In d (cells (removeCell c g))
  <-> In d (cells g) /\ cell_id d <> cell_id c
      /\ (isNode c = true -> incident (cell_id c) d = false).
Proof.
  unfold removeCell; cbn [cells]. rewrite filter_In.
  split.
  - intros (Hin & H). apply andb_true_iff in H as (Hid & Hinc).
    split; [exact Hin |]. split.
    + intros E. rewrite E, CellId_eqb_refl in Hid. discriminate Hid.
    + intros Hn. rewrite Hn in Hinc. cbn [andb] in Hinc.
      now destruct (incident (cell_id c) d).
  - intros (Hin & Hid & Hinc). split; [exact Hin |].
    rewrite (CellId_eqb_neq _ _ Hid). cbn [negb andb].
    destruct (isNode c); [| reflexivity]. now rewrite (Hinc eq_refl).
Qed.

Lemma terminal_is_false (i : CellId) (t : option CellId) :
  terminal_is i t = false -> t <> Some i.
Proof.
  intros H [= ->]. cbn [terminal_is] in H. now rewrite CellId_eqb_refl in H.
Qed.

(** X9.  Delete with a node of the store selected: afterwards the store finds
    nothing under the node's identifier and no edge has the node at either
    end; the cells left are exactly those that were there, are not the
    node and are not edges at it.  The dialog is closed. *)
Theorem delete_removes_node_and_its_edges
  (st : State) (g : Graph) (sel clicked : CellId) (json : NodeMeta.t) :
  graph st = Some g ->
  selected (selectedNode st) = Some sel ->
  getCellById sel g = Some (Node clicked json) ->
  let st' := handleDeleteNode st in
  exists g',
    graph st' = Some g'
    /\ getCellById sel g' = None
    /\ (forall e meta,
           In (Edge e meta) (cells g') ->
           EdgeMeta.source meta <> Some sel /\ EdgeMeta.target meta <> Some sel)
    /\ (forall c,
           In c (cells g')
           <-> In c (cells g) /\ cell_id c <> sel /\ incident sel c = false)
    /\ showModal st' = false
    /\ selectedNode st' = selectedNode st.
Proof.
  intros Hg Hsel Hcell st'. subst st'. unfold handleDeleteNode.
  rewrite Hg, Hsel, Hcell. cbn [setShowModal setGraph graph showModal selectedNode].
  apply getCellById_id in Hcell as [_ Hid]. cbn [cell_id] in Hid. subst clicked.
  eexists. split; [reflexivity |].
  assert (Hin : forall c,
             In c (cells (removeCell (Node sel json) g))
             <-> In c (cells g) /\ cell_id c <> sel /\ incident sel c = false).
  { intros c. rewrite in_removeCell. cbn [cell_id isNode]. intuition. }
  split; [| split; [| split; [exact Hin | split; reflexivity]]].
  - unfold getCellById. apply find_all_false. intros c Hc.
    apply Hin in Hc as (_ & Hne & _). now apply CellId_eqb_neq.
  - intros e meta He. apply Hin in He as (_ & _ & Hinc).
    cbn [incident] in Hinc. apply orb_false_iff in Hinc as [Hs Ht].
    split; now apply terminal_is_false.
Qed.

(** X10.  A click on a node followed by copy: for any node of the store
    whose identifier is not empty and whose shape is registered, the two
    together append a node and the dashed edge to it, close the dialog and
    leave the node selected.  The node appended has the shape and the
    style of the one clicked; its place is not a number and it has no
    size and no label, since the handler reads them under names the
    store's record of a node does not have. *)
Theorem click_then_copy
  (st : State) (g : Graph) (i : CellId) (meta : NodeMeta.t) :
  graph st = Some g ->
  getCellById i g = Some (Node i meta) ->
  i <> Given "" ->
  registered (NodeMeta.shape meta) = true ->
  handleCopyNode registered (handleNodeClick (Some i) st)
  = {| graph :=
         Some {| cells :=
                   cells g
                   ++ [Node (Generated (counter g))
                         {| NodeMeta.id := None;
                            NodeMeta.label := None;
                            NodeMeta.x := JS.NaN;
                            NodeMeta.y := JS.NaN;
                            NodeMeta.width := None;
                            NodeMeta.height := None;
                            NodeMeta.shape := NodeMeta.shape meta;
                            NodeMeta.attrs := NodeMeta.attrs meta |};
                       Edge (Generated (S (counter g)))
                         (copyEdgeMeta i (Generated (counter g)))];
                 counter := S (S (counter g)) |};
       showModal := false;
       selectedNode := Some i;
       error := error st;
       console := console st |}.
Proof.
  intros Hg Hcell Hi Hreg.
  assert (Hsel : selected (Some i) = Some i).
  { destruct i as [s | n]; [| reflexivity]. cbn [selected].
    destruct (String.eqb_spec s ""); [now subst | reflexivity]. }
  rewrite (handleCopyNode_copy registered (handleNodeClick (Some i) st)
             g i i meta).
  - unfold handleNodeClick. rewrite Hg, Hcell.
    cbn [isNode cell_id]. unfold setShowModal, setSelectedNode, setGraph, push.
    cbn [graph showModal selectedNode error console cells counter].
    now rewrite <- app_assoc.
  - unfold handleNodeClick. now rewrite Hg, Hcell.
  - unfold handleNodeClick. now rewrite Hg, Hcell.
  - exact Hcell.
  - exact Hreg.
Qed.

End DialogActions.

(* ------------------------------------------------------------------ *)
(** ** The upload control and the component as a whole *)

Section Component.

Import X6 App Reach.

Variable registered : option string -> bool.
Variable parseFromString : string -> DOM.Document.
Variable Papa_parse_nodes : string -> list NodeRow.t.
Variable Papa_parse_edges : string -> list EdgeData.t.

Lemma processXML_keeps (xmlContent : string) (st : State) :
  showModal (processXML registered parseFromString xmlContent st) = showModal st
  /\ selectedNode (processXML registered parseFromString xmlContent st)
     = selectedNode st
  /\ (error (processXML registered parseFromString xmlContent st) = error st
      \/ error (processXML registered parseFromString xmlContent st)
         = Some xmlProcessingError).
Proof.
  unfold processXML. destruct (graph st); [| auto].
  destruct (addNodes registered _ _); cbn; auto.
Qed.

Lemma processCSV_keeps (csvContent : string) (st : State) :
  showModal (processCSV registered Papa_parse_nodes Papa_parse_edges
               csvContent st) = showModal st
  /\ selectedNode (processCSV registered Papa_parse_nodes Papa_parse_edges
                     csvContent st) = selectedNode st
  /\ (error (processCSV registered Papa_parse_nodes Papa_parse_edges
               csvContent st) = error st
      \/ exists text,
           error (processCSV registered Papa_parse_nodes Papa_parse_edges
                    csvContent st) = Some text).
Proof.
  rewrite processCSV_by_sections.
  destruct (sections csvContent) as [[n e] |]; [destruct (graph st) as [g |] |].
  - destruct (csvImport_graph registered (Papa_parse_nodes (JS.trim n))
                (Papa_parse_edges (JS.trim e)) g st)
      as (_ & Hshow & Hsel & Hdone & Hthrew).
    split; [exact Hshow |]. split; [exact Hsel |].
    destruct (completed _).
    + left. apply (Hdone eq_refl).
    + right. eexists. apply (Hthrew eq_refl).
  - auto.
  - repeat split. right. now eexists.
Qed.

Lemma handleFileUpload_keeps (file : option File.t) (st : State) :
  showModal (handleFileUpload registered parseFromString Papa_parse_nodes
               Papa_parse_edges file st) = showModal st
  /\ selectedNode (handleFileUpload registered parseFromString Papa_parse_nodes
                     Papa_parse_edges file st) = selectedNode st.
Proof.
  unfold handleFileUpload. destruct file as [f |]; [| split; reflexivity].
  destruct (File.read f) as [result |]; [| split; reflexivity].
  destruct (JS.truthy (Some result)); [| split; reflexivity].
  destruct (File.type f =? "text/xml")%string.
  - split; apply processXML_keeps.
  - destruct (File.type f =? "text/csv")%string; [| split; reflexivity].
    split; apply processCSV_keeps.
Qed.

(** X11.  What an upload can and cannot do.  It never opens or closes the dialog
    and never changes the selection.  No file, or a file that reads as
    empty text, changes nothing at all, whatever its type; a read that
    fails, or text of a type other than ["text/xml"] and ["text/csv"],
    only sets the error banner: the graph and the console stay as they
    were. *)
Theorem upload_effects (file : option File.t) (st : State) :
  let st' := handleFileUpload registered parseFromString Papa_parse_nodes
               Papa_parse_edges file st in
  showModal st' = showModal st
  /\ selectedNode st' = selectedNode st
  /\ (file = None -> st' = st)
  /\ (forall f, file = Some f -> File.read f = Loaded "" -> st' = st)
  /\ (forall f, file = Some f -> File.read f = ReadFailed ->
                st' = setError fileReadError st)
  /\ (forall f result,
         file = Some f -> File.read f = Loaded result -> result <> ""%string ->
         File.type f <> "text/xml"%string -> File.type f <> "text/csv"%string ->
         st' = setError unsupportedFileType st).
Proof.
  intros st'. subst st'. unfold handleFileUpload.
  split; [| split; [| split; [| split; [| split]]]].
  - apply handleFileUpload_keeps.
  - apply handleFileUpload_keeps.
  - now intros ->.
  - intros f -> H. now rewrite H.
  - intros f -> H. now rewrite H.
  - intros f result -> H Hr Hx Hc. rewrite H. unfold JS.truthy.
    destruct (String.eqb_spec result ""); [contradiction |]. cbn [negb].
    destruct (String.eqb_spec (File.type f) "text/xml"); [contradiction |].
    destruct (String.eqb_spec (File.type f) "text/csv"); [contradiction |].
    reflexivity.
Qed.

(** What every handler keeps, a run of events keeps. *)
Lemma run_keeps (P : State -> Prop) :
  (forall e st,
      P st ->
      P (handle registered parseFromString Papa_parse_nodes Papa_parse_edges
           e st)) ->
  forall events st,
    P st ->
    P (run registered parseFromString Papa_parse_nodes Papa_parse_edges
         events st).
Proof.
  intros Hstep events. unfold run.
  induction events as [| e events IH]; intros st H; cbn [fold_left];
    [exact H | apply IH, Hstep, H].
Qed.

Lemma handleNodeClick_graph (cell : option CellId) (st : State) :
  graph (handleNodeClick cell st) = graph st.
Proof.
  unfold handleNodeClick. destruct (graph st) as [g |] eqn:Hg; [| exact Hg].
  destruct cell as [i |]; [| exact Hg].
  destruct (getCellById i g) as [c |]; [| exact Hg].
  destruct (isNode c); exact Hg.
Qed.

Lemma handleNodeClick_keeps (cell : option CellId) (st : State) :
  error (handleNodeClick cell st) = error st
  /\ (handleNodeClick cell st = st
      \/ showModal (handleNodeClick cell st) = true
         /\ exists i, selectedNode (handleNodeClick cell st) = Some i).
Proof.
  unfold handleNodeClick. destruct (graph st) as [g |]; [| auto].
  destruct cell as [i |]; [| auto].
  destruct (getCellById i g) as [c |]; [| auto].
  destruct (isNode c); [| auto]. split; [reflexivity |]. right.
  split; [reflexivity | now eexists].
Qed.

(** Copy leaves the state as it is when [graph.addNode] throws, and closes
    the dialog otherwise. *)
Lemma handleCopyNode_keeps (st : State) :
  selectedNode (handleCopyNode registered st) = selectedNode st
  /\ error (handleCopyNode registered st) = error st
  /\ (handleCopyNode registered st = st
      \/ showModal (handleCopyNode registered st) = false).
Proof.
  unfold handleCopyNode. destruct (graph st) as [g |]; [| repeat split; auto].
  destruct (selected (selectedNode st)) as [sel |]; [| repeat split; auto].
  destruct (getCellById sel g) as [[i meta | i meta] |];
    try (repeat split; auto; fail).
  destruct (addNode registered _ g) as [[c g1] |]; repeat split; auto.
Qed.

Lemma handleDeleteNode_keeps (st : State) :
  showModal (handleDeleteNode st) = false
  /\ selectedNode (handleDeleteNode st) = selectedNode st
  /\ error (handleDeleteNode st) = error st.
Proof.
  unfold handleDeleteNode. destruct (graph st) as [g |]; [| repeat split].
  destruct (selected (selectedNode st)) as [sel |]; [| repeat split].
  destruct (getCellById sel g); repeat split.
Qed.

Lemma handleFileUpload_error (file : option File.t) (st : State) :
  error st <> None ->
  error (handleFileUpload registered parseFromString Papa_parse_nodes
           Papa_parse_edges file st) <> None.
Proof.
  intros H. unfold handleFileUpload. destruct file as [f |]; [| exact H].
  destruct (File.read f) as [result |]; [| discriminate].
  destruct (JS.truthy (Some result)); [| exact H].
  destruct (File.type f =? "text/xml")%string.
  - destruct (proj2 (proj2 (processXML_keeps result st))) as [E | E];
      rewrite E; [exact H | discriminate].
  - destruct (File.type f =? "text/csv")%string; [| discriminate].
    destruct (proj2 (proj2 (processCSV_keeps result st))) as [E | [text E]];
      rewrite E; [exact H | discriminate].
Qed.

(** X12.  Nothing the component does clears the error banner or the selection:
    once an error is shown it stays shown through every later event, a
    successful import included, and once a node has been selected the
    selection slot is never empty again. *)
Theorem error_and_selection_never_cleared (events : list Event) (st : State) :
  (error st <> None ->
   error (run registered parseFromString Papa_parse_nodes Papa_parse_edges
            events st) <> None)
  /\ (selectedNode st <> None ->
      selectedNode (run registered parseFromString Papa_parse_nodes
                      Papa_parse_edges events st) <> None).
Proof.
  split.
  - apply (run_keeps (fun s => error s <> None)). intros e s H.
    destruct e; cbn [handle].
    + exact H.
    + now rewrite (proj1 (handleNodeClick_keeps cell s)).
    + now rewrite (proj1 (proj2 (handleCopyNode_keeps s))).
    + now rewrite (proj2 (proj2 (handleDeleteNode_keeps s))).
    + exact H.
    + now apply handleFileUpload_error.
  - apply (run_keeps (fun s => selectedNode s <> None)). intros e s H.
    destruct e; cbn [handle].
    + exact H.
    + destruct (proj2 (handleNodeClick_keeps cell s)) as [E | [_ [i E]]];
        rewrite E; [exact H | discriminate].
    + now rewrite (proj1 (handleCopyNode_keeps s)).
    + now rewrite (proj1 (proj2 (handleDeleteNode_keeps s))).
    + exact H.
    + now rewrite (proj2 (handleFileUpload_keeps file s)).
Qed.

(** X13.  From the state before mounting, whenever the dialog is open a node is
    selected. *)
Theorem open_dialog_has_selection (events : list Event) :
  showModal (run registered parseFromString Papa_parse_nodes Papa_parse_edges
               events initial) = true ->
  exists i,
    selectedNode (run registered parseFromString Papa_parse_nodes
                    Papa_parse_edges events initial) = Some i.
Proof.
  apply (run_keeps (fun s => showModal s = true -> exists i, selectedNode s = Some i)).
  - intros e s H. destruct e; cbn [handle].
    + exact H.
    + destruct (proj2 (handleNodeClick_keeps cell s)) as [E | [_ Hi]];
        [now rewrite E | intros _; exact Hi].
    + destruct (proj2 (proj2 (handleCopyNode_keeps s))) as [E | E];
        [now rewrite E | rewrite E; discriminate].
    + rewrite (proj1 (handleDeleteNode_keeps s)). discriminate.
    + discriminate.
    + rewrite (proj1 (handleFileUpload_keeps file s)),
        (proj2 (handleFileUpload_keeps file s)). exact H.
  - discriminate.
Qed.

Lemma edges_removeCell (c : Cell) (g : Graph) (m : EdgeMeta.t) :
  In m (edges (removeCell c g)) -> In m (edges g).
Proof.
  unfold edges. rewrite !in_flat_map. intros (d & Hd & Hm).
  exists d. split; [| exact Hm]. now apply in_removeCell in Hd.
Qed.

(** What holds of every edge the handlers build holds of every edge of
    the store in every state the component reaches. *)
Lemma store_edges_kept (Q : EdgeMeta.t -> Prop) :
  (forall edge, Q (xmlEdgeMeta edge)) ->
  (forall edge, Q (csvEdgeMeta edge)) ->
  (forall clicked copied, Q (copyEdgeMeta clicked copied)) ->
  forall events,
    of_graph (fun g => Forall Q (edges g))
      (run registered parseFromString Papa_parse_nodes Papa_parse_edges
         events initial).
Proof.
  intros HQx HQc HQk events.
  apply (run_keeps (of_graph (fun g => Forall Q (edges g)))); [| exact I].
  intros e st H. unfold of_graph in *. destruct e; cbn [handle].
  - constructor.
  - now rewrite handleNodeClick_graph.
  - unfold handleCopyNode.
    destruct (graph st) as [g |] eqn:Hg; [| cbn; now rewrite Hg].
    destruct (selected (selectedNode st)) as [sel |]; [| cbn; now rewrite Hg].
    destruct (getCellById sel g) as [[i meta | i meta] |] eqn:Hc;
      try (cbn; now rewrite Hg).
    destruct (addNode registered _ g) as [[c g1] |] eqn:E; [| now rewrite Hg].
    apply addNode_returns in E as (_ & -> & Hg1).
    cbn [addEdge setShowModal setGraph graph]. rewrite edges_push.
    apply Forall_app. split; [| constructor; [apply HQk | constructor]].
    destruct Hg1 as [-> | ->]; [exact H |].
    rewrite edges_push, app_nil_r. exact H.
  - unfold handleDeleteNode.
    destruct (graph st) as [g |] eqn:Hg; [| cbn; now rewrite Hg].
    destruct (selected (selectedNode st)) as [sel |]; [| cbn; now rewrite Hg].
    destruct (getCellById sel g) as [c |]; [| cbn; now rewrite Hg].
    cbn [setShowModal setGraph graph].
    rewrite Forall_forall in H. apply Forall_forall. intros m Hm.
    apply H. now apply edges_removeCell in Hm.
  - exact H.
  - unfold handleFileUpload. destruct file as [f |]; [| exact H].
    destruct (File.read f) as [result |]; [| exact H].
    destruct (JS.truthy (Some result)); [| exact H].
    destruct (File.type f =? "text/xml")%string.
    + destruct (graph st) as [g |] eqn:Hg.
      * destruct (processXML_store_from registered parseFromString result st g Hg)
          as (g' & Hg' & _ & He).
        rewrite Hg'. apply Forall_forall. intros m Hm.
        destruct (He m Hm) as (edge & _ & ->). apply HQx.
      * unfold processXML. rewrite Hg. cbn iota. now rewrite Hg.
    + destruct (File.type f =? "text/csv")%string; [| exact H].
      destruct (sections result) as [[n e] |] eqn:Hs.
      * destruct (graph st) as [g |] eqn:Hg.
        -- destruct (processCSV_store_from registered Papa_parse_nodes
                       Papa_parse_edges result n e st g Hg Hs)
             as (g' & Hg' & _ & He).
           rewrite Hg'. apply Forall_forall. intros m Hm.
           destruct (He m Hm) as (edge & _ & _ & ->). apply HQc.
        -- rewrite processCSV_by_sections, Hs, Hg. now rewrite Hg.
      * rewrite processCSV_by_sections, Hs. exact H.
Qed.

(** X15.  In every state the component reaches from before mounting, every edge
    of the store has a line of width 2 that is black or purple and solid,
    "5, 5" or "2, 2", the circle marker at its source and the diamond at
    its target. *)
Theorem reached_edges_decorated (events : list Event) (g : Graph) :
  graph (run registered parseFromString Papa_parse_nodes Papa_parse_edges
           events initial)
  = Some g ->
  Forall edge_decorated (edges g).
Proof.
  intros Hg.
  assert (Hdash : forall t,
             strokeDasharray t = None
             \/ strokeDasharray t = Some "5, 5"%string
             \/ strokeDasharray t = Some "2, 2"%string).
  { intros [t |]; cbn [strokeDasharray]; [| now left].
    destruct (t =? "dashed")%string; [now right; left |].
    destruct (t =? "dotted")%string; [now right; right | now left]. }
  pose proof (store_edges_kept edge_decorated) as H.
  unfold of_graph in H.
  assert (Hall : forall ev,
    match graph (run registered parseFromString Papa_parse_nodes
                   Papa_parse_edges ev initial)
    with
    | Some g0 => Forall edge_decorated (edges g0)
    | None => True
    end).
  { apply H.
    - intros edge. unfold edge_decorated. cbn. repeat split; auto.
    - intros edge. unfold edge_decorated. cbn. repeat split; auto.
    - intros clicked copied. unfold edge_decorated. cbn. repeat split; auto. }
  specialize (Hall events). rewrite Hg in Hall. apply Hall.
Qed.

End Component.

(* ------------------------------------------------------------------ *)
(** ** An import that brings nothing *)

Section EmptyImport.

Import X6 App.

Variable registered : option string -> bool.
Variable parseFromString : string -> DOM.Document.
Variable Papa_parse_nodes : string -> list NodeRow.t.
Variable Papa_parse_edges : string -> list EdgeData.t.

(** X17.  An import that yields no node and no edge still replaces the graph.
    With a graph in place, a document without [node] and [edge] elements
    (what the parser returns for text that is not well-formed is one), or
    tabular text none of whose rows passes a guard, leaves the store
    empty; the markup import reports nothing and sets no error banner. *)
Theorem import_of_nothing_clears_store
  (xmlContent csvContent nodesContent edgesContent : string)
  (st : State) (g : Graph) :
  graph st = Some g ->
  DOM.getElementsByTagName "node" (parseFromString xmlContent) = [] ->
  DOM.getElementsByTagName "edge" (parseFromString xmlContent) = [] ->
  sections csvContent = Some (nodesContent, edgesContent) ->
  filter csvNodeOk (Papa_parse_nodes (JS.trim nodesContent)) = [] ->
  filter csvEdgeOk (Papa_parse_edges (JS.trim edgesContent)) = [] ->
  processXML registered parseFromString xmlContent st
  = setGraph (clearCells g) st
  /\ (exists g',
         graph (processCSV registered Papa_parse_nodes Papa_parse_edges
                  csvContent st)
         = Some g'
         /\ cells g' = []
         /\ error (processCSV registered Papa_parse_nodes Papa_parse_edges
                     csvContent st)
            = error st).
Proof.
  intros Hg Hn He Hs Hrn Hre. split.
  - rewrite (processXML_import _ _ _ _ _ Hg). unfold xmlNodes, xmlEdges.
    now rewrite Hn, He.
  - rewrite (processCSV_import _ _ _ _ _ _ _ _ Hs Hg).
    destruct (csvImport_graph registered (Papa_parse_nodes (JS.trim nodesContent))
                (Papa_parse_edges (JS.trim edgesContent)) g st)
      as (Hgraph & _ & _ & Hdone & _).
    rewrite Hrn, Hre in Hgraph. rewrite Hrn in Hdone.
    cbn [map addNodes completed reached addEdges fold_left] in Hgraph, Hdone.
    eexists. split; [exact Hgraph |]. split; [reflexivity |].
    apply (Hdone eq_refl).
Qed.

End EmptyImport.
(* ------------------------------------------------------------------ *)
(** ** The further properties at the sample inputs *)

Section MoreInstances.

Import X6 App Reach.

Lemma table_nodes_first :
  ~ JS.includes "---" (Samples.table_nodes ++ "--")%string.
Proof. intros H. apply includes_includesb in H. vm_compute in H. discriminate H. Qed.

Lemma table_edges_first :
  ~ JS.includes "---" (Samples.table_edges ++ "--")%string.
Proof. intros H. apply includes_includesb in H. vm_compute in H. discriminate H. Qed.

(** X1 at an instance.  The node section of [Samples.table] with nothing after the separator. *)
Lemma csv_empty_section_rejected_witness :
  ~ JS.includes "---" (Samples.table_nodes ++ "--")%string
  /\ processCSV Samples.shapes Papa.parse_nodes Papa.parse_edges
       (Samples.table_nodes ++ "---") Samples.mounted
     = setError csvInvalidFormat Samples.mounted.
Proof.
  split; [exact table_nodes_first |].
  exact (proj2 (csv_empty_section_rejected Samples.shapes Papa.parse_nodes Papa.parse_edges
                  Samples.table_nodes Samples.table_edges Samples.mounted
                  table_nodes_first)).
Defined.

(** X2 at an instance.  [Samples.table] followed by a second separator and more text. *)
Lemma csv_text_after_second_separator_ignored_witness :
  Samples.table_nodes <> ""%string
  /\ Samples.table_edges <> ""%string
  /\ processCSV Samples.shapes Papa.parse_nodes Papa.parse_edges
       (Samples.table_nodes ++ "---" ++ Samples.table_edges ++ "---"
        ++ "x,y,z") Samples.mounted
     = processCSV Samples.shapes Papa.parse_nodes Papa.parse_edges Samples.table
         Samples.mounted.
Proof.
  split; [discriminate |]. split; [discriminate |].
  refine (proj2 (proj2 (csv_text_after_second_separator_ignored
                          Samples.shapes Papa.parse_nodes Papa.parse_edges
                          Samples.table_nodes Samples.table_edges "x,y,z"
                          Samples.mounted _ _ table_nodes_first
                          table_edges_first))); discriminate.
Defined.

(** X3 at an instance.  [Samples.two_nodes]: at most two nodes, then one edge. *)
Lemma import_store_is_nodes_then_edges_witness :
  graph Samples.mounted = Some Samples.empty_graph
  /\ sections Samples.table = Some (Samples.table_nodes, Samples.table_edges)
  /\ (exists g' ncells ecells,
         graph (processXML Samples.shapes session_parser "<graph>"
                  Samples.mounted) = Some g'
         /\ cells g' = ncells ++ ecells
         /\ (length ncells <= 2)%nat
         /\ length ecells = 1%nat).
Proof.
  split; [reflexivity |]. split; [reflexivity |].
  destruct (import_store_is_nodes_then_edges
              Samples.shapes session_parser Papa.parse_nodes Papa.parse_edges
              "<graph>" Samples.table Samples.table_nodes Samples.table_edges
              Samples.mounted Samples.empty_graph eq_refl eq_refl)
    as ((g' & nc & ec & Hg' & Hc & _ & _ & Hn & _ & He & _) & _).
  exists g', nc, ec. split; [exact Hg' |]. split; [exact Hc |].
  split; [exact Hn | exact (He eq_refl)].
Defined.

(** X4 at an instance.  The dashed edge of [Samples.two_nodes]. *)
Lemma import_edge_line_style_witness :
  graph Samples.mounted = Some Samples.empty_graph
  /\ sections Samples.table = Some (Samples.table_nodes, Samples.table_edges)
  /\ map (DOM.getAttribute "type")
       (DOM.getElementsByTagName "edge" Samples.two_nodes)
     = [Some "dashed"%string]
  /\ (exists g' meta,
         graph (processXML Samples.shapes session_parser "<graph>"
                  Samples.mounted) = Some g'
         /\ edges g' = [meta]
         /\ Line.strokeDasharray (EdgeAttrs.line (EdgeMeta.attrs meta))
            = Some "5, 5"%string).
Proof.
  split; [reflexivity |]. split; [reflexivity |]. split; [reflexivity |].
  destruct (import_edge_line_style
              Samples.shapes session_parser Papa.parse_nodes Papa.parse_edges
              "<graph>" Samples.table Samples.table_nodes Samples.table_edges
              Samples.mounted Samples.empty_graph eq_refl eq_refl)
    as ((g' & Hg' & Hall) & _).
  injection Hg' as <-.
  eexists _, _. split; [reflexivity |]. split; [reflexivity |].
  apply Forall_inv in Hall.
  destruct Hall as (edge & Hin & _ & _ & _ & Hd & _).
  destruct Hin as [<- | []]. exact (Hd eq_refl).
Defined.

(** X5 at an instance.  Node [b] of [Samples.two_nodes], the second [node] element. *)
Lemma markup_node_found_and_clickable_witness :
  graph Samples.mounted = Some Samples.empty_graph
  /\ DOM.getElementsByTagName "node" Samples.two_nodes = [node_a] ++ node_b :: []
  /\ DOM.getAttribute "id" node_b = Some "b"%string
  /\ (exists g',
         graph imported = Some g'
         /\ getCellById (Given "b") g'
            = Some (Node (Given "b") (xmlNodeMeta (xmlNodeData node_b)))).
Proof.
  split; [reflexivity |]. split; [reflexivity |]. split; [reflexivity |].
  destruct (markup_node_found_and_clickable
              Samples.shapes session_parser "<graph>" Samples.mounted
              Samples.empty_graph [node_a] [] node_b "b"
              eq_refl eq_refl eq_refl)
    as (g' & Hg' & Hfind & _).
  - discriminate.
  - intros e [<- | []]. discriminate.
  - reflexivity.
  - exists g'. split; assumption.
Defined.

(** X6 at an instance.  Row [b] of [Samples.table], the second row that passes the guard. *)
Lemma tabular_node_found_and_clickable_witness :
  graph Samples.mounted = Some Samples.empty_graph
  /\ sections Samples.table = Some (Samples.table_nodes, Samples.table_edges)
  /\ filter csvNodeOk (Papa.parse_nodes (JS.trim Samples.table_nodes))
     = [row_a] ++ row_b :: []
  /\ (exists g',
         graph (processCSV Samples.shapes Papa.parse_nodes Papa.parse_edges Samples.table
                  Samples.mounted) = Some g'
         /\ getCellById (Given "b") g'
            = Some (Node (Given "b") (csvNodeMeta row_b))).
Proof.
  split; [reflexivity |]. split; [reflexivity |]. split; [reflexivity |].
  destruct (tabular_node_found_and_clickable
              Samples.shapes Papa.parse_nodes Papa.parse_edges
              Samples.table Samples.table_nodes Samples.table_edges
              Samples.mounted Samples.empty_graph
              [row_a] [] row_b "b" eq_refl eq_refl eq_refl eq_refl)
    as (g' & Hg' & Hfind & _).
  - intros r [<- | []]. discriminate.
  - reflexivity.
  - exists g'. split; assumption.
Defined.

(** X7 at an instance.  A click on [a] after the import of [Samples.two_nodes], and a click
    before the component is mounted. *)
Lemma click_selects_nodes_only_witness :
  graph imported = Some Samples.a_graph
  /\ getCellById (Given "a") Samples.a_graph
     = Some (Node (Given "a") Samples.a_meta)
  /\ selectedNode (handleNodeClick (Some (Given "a")) imported)
     = Some (Given "a")
  /\ handleNodeClick (Some (Given "a")) initial = initial.
Proof.
  split; [reflexivity |]. split; [reflexivity |]. split.
  - rewrite (proj2 (click_selects_nodes_only (Some (Given "a")) imported)
               Samples.a_graph (Given "a") Samples.a_meta
               eq_refl eq_refl eq_refl).
    reflexivity.
  - apply (proj1 (click_selects_nodes_only (Some (Given "a")) initial)).
    left. reflexivity.
Defined.

(** X8 at an instance.  Copy and delete before the component is mounted. *)
Lemma copy_and_delete_need_a_target_witness :
  graph initial = None
  /\ handleCopyNode Samples.shapes initial = setShowModal false initial
  /\ handleDeleteNode initial = setShowModal false initial.
Proof.
  split; [reflexivity |].
  apply (proj1 (copy_and_delete_need_a_target Samples.shapes initial)). left. reflexivity.
Defined.

(** X9 at an instance.  Delete of [a] in [Samples.two_nodes]: [b] is all that is left. *)
Lemma delete_removes_node_and_its_edges_witness :
  graph Samples.a_selected = Some Samples.a_graph
  /\ selected (selectedNode Samples.a_selected) = Some (Given "a")
  /\ getCellById (Given "a") Samples.a_graph
     = Some (Node (Given "a") Samples.a_meta)
  /\ (exists g',
         graph (handleDeleteNode Samples.a_selected) = Some g'
         /\ getCellById (Given "a") g' = None
         /\ map cell_id (cells g') = [Given "b"]).
Proof.
  split; [reflexivity |]. split; [reflexivity |]. split; [reflexivity |].
  destruct (delete_removes_node_and_its_edges
              Samples.a_selected Samples.a_graph (Given "a") (Given "a")
              Samples.a_meta eq_refl eq_refl eq_refl)
    as (g' & Hg' & Hnone & _).
  exists g'. split; [exact Hg' |]. split; [exact Hnone |].
  injection Hg' as <-. reflexivity.
Defined.

(** X10 at an instance.  Click and copy of [a] after the import of [Samples.two_nodes]. *)
Lemma click_then_copy_witness :
  graph imported = Some Samples.a_graph
  /\ getCellById (Given "a") Samples.a_graph
     = Some (Node (Given "a") Samples.a_meta)
  /\ Samples.shapes (NodeMeta.shape Samples.a_meta) = true
  /\ selectedNode (handleCopyNode Samples.shapes
                     (handleNodeClick (Some (Given "a")) imported))
     = Some (Given "a")
  /\ showModal (handleCopyNode Samples.shapes
                  (handleNodeClick (Some (Given "a")) imported))
     = false.
Proof.
  split; [reflexivity |]. split; [reflexivity |]. split; [reflexivity |].
  rewrite (click_then_copy Samples.shapes imported Samples.a_graph (Given "a")
             Samples.a_meta eq_refl eq_refl).
  - split; reflexivity.
  - discriminate.
  - reflexivity.
Defined.

(** X11 at an instance.  A file that declares the type [application/xml]. *)
Lemma upload_effects_witness :
  handleFileUpload Samples.shapes session_parser Papa.parse_nodes Papa.parse_edges
    (Some (File.mk "application/xml" (Loaded "<graph>"))) Samples.mounted
  = setError unsupportedFileType Samples.mounted.
Proof.
  destruct (upload_effects Samples.shapes session_parser Papa.parse_nodes Papa.parse_edges
              (Some (File.mk "application/xml" (Loaded "<graph>")))
              Samples.mounted)
    as (_ & _ & _ & _ & _ & H).
  apply (H (File.mk "application/xml" (Loaded "<graph>")) "<graph>"%string
           eq_refl eq_refl); discriminate.
Defined.

(** X12 at an instance.  An error shown before [Reach.session] is still shown after it. *)
Lemma error_and_selection_never_cleared_witness :
  error (setError fileReadError initial) <> None
  /\ error (run Samples.shapes session_parser Papa.parse_nodes Papa.parse_edges session
              (setError fileReadError initial)) <> None.
Proof.
  assert (H : error (setError fileReadError initial) <> None) by discriminate.
  split; [exact H |].
  exact (proj1 (error_and_selection_never_cleared
                  Samples.shapes session_parser Papa.parse_nodes Papa.parse_edges
                  session (setError fileReadError initial)) H).
Defined.

(** X13 at an instance.  After [Reach.opening] the dialog is open, on [a]. *)
Lemma open_dialog_has_selection_witness :
  showModal (run Samples.shapes session_parser Papa.parse_nodes Papa.parse_edges opening
               initial) = true
  /\ exists i,
       selectedNode (run Samples.shapes session_parser Papa.parse_nodes Papa.parse_edges
                       opening initial) = Some i.
Proof.
  split; [reflexivity |].
  exact (open_dialog_has_selection
           Samples.shapes session_parser Papa.parse_nodes Papa.parse_edges opening eq_refl).
Defined.

(** X15 at an instance.  The store after [Reach.session]: the imported edge and the edge to the
    copy. *)
Lemma reached_edges_decorated_witness :
  graph (run Samples.shapes session_parser Papa.parse_nodes Papa.parse_edges session initial)
  = Some session_graph
  /\ length (edges session_graph) = 2%nat
  /\ Forall edge_decorated (edges session_graph).
Proof.
  split; [reflexivity |]. split; [reflexivity |].
  exact (reached_edges_decorated
           Samples.shapes session_parser Papa.parse_nodes Papa.parse_edges
           session session_graph eq_refl).
Defined.

(** X17 at an instance.  A document without [node] and [edge] elements, and a table whose only
    rows are turned away. *)
Lemma import_of_nothing_clears_store_witness :
  graph Samples.a_selected = Some Samples.a_graph
  /\ DOM.getElementsByTagName "node" no_elements = []
  /\ DOM.getElementsByTagName "edge" no_elements = []
  /\ processXML Samples.shapes (fun _ => no_elements) "<" Samples.a_selected
     = setGraph (clearCells Samples.a_graph) Samples.a_selected.
Proof.
  split; [reflexivity |]. split; [reflexivity |]. split; [reflexivity |].
  exact (proj1 (import_of_nothing_clears_store
                  Samples.shapes (fun _ => no_elements) (fun _ => []) (fun _ => [])
                  "<" Samples.table Samples.table_nodes Samples.table_edges
                  Samples.a_selected Samples.a_graph
                  eq_refl eq_refl eq_refl eq_refl eq_refl eq_refl)).
Defined.

End MoreInstances.
